(** * check50_workflow: the workflow generator, embedded and verified

    The program of [check50_workflow/__main__.py] reads a list of slugs, an
    output path and a force flag, builds a nested dict/list document and hands
    it to PyYAML.  This development embeds

    - the Python string and [pathlib] primitives the builder calls,
    - [build_workflow], with the job's step list as a mutable object of a store,
    - the module-level customisation of the dumper class and PyYAML's
      representer pass (Python objects to a node graph),
    - PyYAML's choice of the style a scalar is written in,
    - [main], over the operating system it calls.

    Python strings are modelled as [string] (characters with code points
    below 256). *)

From Stdlib Require Import ZArith Lia Ascii Btauto.
From stdpp Require Import base option list strings gmap.

Local Open Scope Z_scope.
#[local] Set Warnings "-register-all".

(* ===================================================================== *)
(** ** Python string primitives *)
(* ===================================================================== *)

Module PyStr.

(** The line feed and double-quote characters of the source's literals. *)
Definition LF : ascii := Ascii.ascii_of_nat 10.
Definition DQUOTE : ascii := Ascii.ascii_of_nat 34.
Definition nl : string := String LF EmptyString.
Definition dq : string := String DQUOTE EmptyString.

(** [c in s] for a one-character needle. *)
Fixpoint contains (c : ascii) (s : string) : bool :=
  match s with
  | EmptyString => false
  | String a s' => Ascii.eqb a c || contains c s'
  end.

(** [s.rstrip(c)] for a one-character strip set. *)
Fixpoint rstrip (c : ascii) (s : string) : string :=
  match s with
  | EmptyString => EmptyString
  | String a s' =>
      match rstrip c s' with
      | EmptyString => if Ascii.eqb a c then EmptyString else String a EmptyString
      | r => String a r
      end
  end.

(** [s.split(c)]: always at least one field. *)
Fixpoint split (c : ascii) (s : string) : list string :=
  match s with
  | EmptyString => [EmptyString]
  | String a s' =>
      if Ascii.eqb a c then EmptyString :: split c s'
      else match split c s' with
           | w :: ws => String a w :: ws
           | [] => [String a EmptyString]
           end
  end.

(** [s.rfind(c)]: the index of the last occurrence, [-1] when absent. *)
Fixpoint rfind (c : ascii) (s : string) : Z :=
  match s with
  | EmptyString => -1
  | String a s' =>
      let i := rfind c s' in
      if 0 <=? i then 1 + i
      else if Ascii.eqb a c then 0 else -1
  end.

(** [s[:i]] for [0 <= i]. *)
Definition slice_to (i : Z) (s : string) : string :=
  String.substring 0 (Z.to_nat i) s.

Definition len (s : string) : Z := Z.of_nat (String.length s).

(** [sep.join(l)]. *)
Fixpoint join (sep : string) (l : list string) : string :=
  match l with
  | [] => EmptyString
  | [x] => x
  | x :: l' => x +:+ sep +:+ join sep l'
  end.

(** Naive substring test, used to inspect generated shell commands. *)
Fixpoint occurs_in (needle hay : string) : bool :=
  String.prefix needle hay ||
  match hay with
  | EmptyString => false
  | String _ hay' => occurs_in needle hay'
  end.

End PyStr.

(* ===================================================================== *)
(** ** [pathlib.PurePosixPath]: the final component and its stem *)
(* ===================================================================== *)

Module PyPath.
Import PyStr.

(** The parts of a path after the anchor: PurePosixPath splits on ["/"]
    and drops empty and ["."] components. *)
Definition keep_part (x : string) : bool :=
  negb (String.eqb x EmptyString) && negb (String.eqb x ".").

Definition tail_parts (p : string) : list string :=
  List.filter keep_part (split "/" p).

(** [Path(p).name]: the last part, the empty string when there is none. *)
Definition name (p : string) : string :=
  List.last (tail_parts p) EmptyString.

(** [Path(p).stem] (CPython 3.12): the name without its last suffix; a
    leading or a trailing dot does not start a suffix. *)
Definition stem (p : string) : string :=
  let n := name p in
  let i := rfind "." n in
  if (0 <? i) && (i <? len n - 1) then slice_to i n else n.

End PyPath.

(* ===================================================================== *)
(** ** Name derivation (the first two statements of the slug loop) *)
(* ===================================================================== *)

Definition slug_clean_of (slug_path : string) : string :=
  PyStr.rstrip "/" slug_path.

Definition slug_name_of (slug_path : string) : string :=
  PyPath.stem (slug_clean_of slug_path).

(* ===================================================================== *)
(** ** Python objects, the store of list objects, and exceptions *)
(* ===================================================================== *)

Module Py.

(** A list is a mutable object with an identity: a value refers to it by
    its address in the store.  Dicts are kept by value, in insertion order
    (no dict of the program is mutated after it has been built, and none
    is compared by identity).  [VBlankLine] is an instance of the source's
    placeholder class [BlankLine]. *)
Abbreviation addr := nat (only parsing).

Inductive value :=
| VStr (s : string)
| VDict (items : list (string * value))
| VList (a : addr)
| VTuple (items : list value)
| VBlankLine.

Abbreviation store := (list (list value)) (only parsing).

Inductive exn := KeyError | TypeError | AttributeError | RecursionError | SystemError.

Inductive result (A : Type) :=
| Ok (a : A)
| Raise (e : exn).
Arguments Ok {A} a.
Arguments Raise {A} e.

(** Computations over the store that may raise. *)
Definition M (A : Type) : Type := store -> result (A * store).

Definition raise {A} (e : exn) : M A := fun _ => Raise e.

#[global] Instance M_ret : MRet M := fun A a st => Ok (a, st).
#[global] Instance M_bind : MBind M := fun A B f m st =>
  match m st with
  | Ok (a, st') => f a st'
  | Raise e => Raise e
  end.

(** [d[k]] on the items of a dict. *)
Fixpoint dict_get (k : string) (d : list (string * value)) : option value :=
  match d with
  | [] => None
  | (k', v) :: d' => if String.eqb k' k then Some v else dict_get k d'
  end.

(** [d[k] = v]: an existing key keeps its position and takes the new
    value, a new key goes last. *)
Fixpoint dict_set (k : string) (v : value) (d : list (string * value))
  : list (string * value) :=
  match d with
  | [] => [(k, v)]
  | (k', v') :: d' =>
      if String.eqb k' k then (k', v) :: d' else (k', v') :: dict_set k v d'
  end.

(** Subscription [o[k]] with a string key. *)
Definition getitem (o : value) (k : string) : M value :=
  match o with
  | VDict d => match dict_get k d with
               | Some v => mret v
               | None => raise KeyError
               end
  | _ => raise TypeError
  end.

(** A list display [[x1, ..., xn]]: a fresh object. *)
Definition new_list (items : list value) : M value :=
  fun st => Ok (VList (length st), st ++ [items]).

Definition read_list (a : addr) : M (list value) :=
  fun st => match st !! a with
            | Some items => Ok (items, st)
            | None => Raise SystemError
            end.

(** [o.append(x)]: in place. *)
Definition list_append (o : value) (x : value) : M unit :=
  match o with
  | VList a => fun st =>
      match st !! a with
      | Some items => Ok (tt, <[a := items ++ [x]]> st)
      | None => Raise SystemError
      end
  | _ => raise AttributeError
  end.

End Py.

(* ===================================================================== *)
(** ** args.py and [build_workflow] *)
(* ===================================================================== *)

Record Namespace := {
  slugs : list string;
  force : bool;
  outfile : string
}.

Module Workflow.
Import PyStr Py.

Definition checkout_step : value :=
  VDict [("uses", VStr "actions/checkout@v4")].

Definition install_step : value :=
  VDict [("name", VStr "Install dependencies (node, git, jq)");
         ("run", VStr ("apt-get update" +:+ nl +:+
                       "apt-get install -y nodejs git jq" +:+ nl +:+
                       "apt-get clean" +:+ nl +:+
                       "rm -rf /var/lib/apt/lists/*" +:+ nl))].

(** The literal that [workflow] is bound to; [steps] is the list object
    created by the inner list display. *)
Definition workflow_literal (steps : value) : value :=
  VDict [("name", VStr "Autograding Tests");
         ("on", VDict [("push", VDict []); ("repository_dispatch", VDict [])]);
         ("permissions", VDict [("checks", VStr "write");
                                ("actions", VStr "read");
                                ("contents", VStr "read")]);
         ("jobs", VDict [("run-autograding-tests",
            VDict [("container", VDict [("image", VStr "python:3.12-slim")]);
                   ("runs-on", VStr "ubuntu-latest");
                   ("steps", steps)])])].

Definition grading_command (slug_clean slug_name_no_ext : string) : string :=
  "check50 " +:+ slug_clean +:+ " --dev -o json " +:+
  "--autograder ./autograder/" +:+ slug_name_no_ext +:+ ".json " +:+
  "--feedback ./feedback/" +:+ slug_name_no_ext +:+ ".txt".

Definition grading_step (slug_clean slug_name_no_ext : string) : value :=
  VDict [("name", VStr slug_name_no_ext);
         ("id", VStr slug_name_no_ext);
         ("uses", VStr "classroom-resources/autograding-command-grader@v1");
         ("with", VDict [
            ("test-name", VStr slug_name_no_ext);
            ("setup-command", VStr ("pip uninstall -y check50" +:+ nl +:+
               "pip install --no-cache-dir git+https://github.com/dhodcz2/check50.git" +:+ nl));
            ("command", VStr (grading_command slug_clean slug_name_no_ext))])].

Definition export_command (slug_name_no_ext : string) : string :=
  "echo " +:+ dq +:+ slug_name_no_ext +:+ "_RESULTS=$(base64 -w0 ./" +:+
  slug_name_no_ext +:+ ".json)" +:+ dq +:+ " >> $GITHUB_ENV".

Definition export_step (slug_name_no_ext : string) : value :=
  VDict [("name", VStr ("Assign file contents to " +:+ slug_name_no_ext +:+ "_RESULTS"));
         ("run", VStr (export_command slug_name_no_ext))].

(** [workflow['jobs']['run-autograding-tests']['steps']]. *)
Definition job_steps (workflow : value) : M value :=
  jobs ← getitem workflow "jobs";
  job ← getitem jobs "run-autograding-tests";
  getitem job "steps".

(** The [for slug_path in args.slugs] loop; [slug_names] is the list the
    loop appends to. *)
Fixpoint slug_loop (workflow : value) (slugs : list string)
         (slug_names : list string) : M (list string) :=
  match slugs with
  | [] => mret slug_names
  | slug_path :: rest =>
      let slug_clean := rstrip "/" slug_path in
      let slug_name_no_ext := PyPath.stem slug_clean in
      let slug_names := slug_names ++ [slug_name_no_ext] in
      steps ← job_steps workflow;
      _ ← list_append steps (grading_step slug_clean slug_name_no_ext);
      steps ← job_steps workflow;
      _ ← list_append steps (export_step slug_name_no_ext);
      slug_loop workflow rest slug_names
  end.

Definition env_key (s : string) : string := s +:+ "_RESULTS".
Definition env_template (s : string) : string :=
  "${{ env." +:+ s +:+ "_RESULTS }}".

(** The dict comprehension over [slug_names]. *)
Definition env_map (slug_names : list string) : list (string * value) :=
  fold_left (fun d s => dict_set (env_key s) (VStr (env_template s)) d)
            slug_names [].

Definition reporter_step (slug_names : list string) : value :=
  VDict [("name", VStr "Autograding Reporter");
         ("uses", VStr "classroom-resources/autograding-grading-reporter@v1");
         ("env", VDict (env_map slug_names));
         ("with", VDict [("runners", VStr (join " " slug_names))])].

Definition build_workflow (args : Namespace) : M value :=
  steps0 ← new_list [checkout_step; install_step];
  let workflow := workflow_literal steps0 in
  slug_names ← slug_loop workflow (slugs args) [];
  steps ← job_steps workflow;
  _ ← list_append steps (reporter_step slug_names);
  mret workflow.

End Workflow.

(* ===================================================================== *)
(** ** PyYAML's representer pass and the module-level customisation *)
(* ===================================================================== *)

Module Yaml.
Import PyStr Py.

(** The node graph a representer hands to the serializer. *)
Inductive scalar_style := Literal | Folded | SingleQuoted | DoubleQuoted.

Inductive node :=
| ScalarNode (tag : string) (value : string) (style : option scalar_style)
| SequenceNode (tag : string) (items : list node)
| MappingNode (tag : string) (items : list (node * node)).

Definition tag_str : string := "tag:yaml.org,2002:str".
Definition tag_seq : string := "tag:yaml.org,2002:seq".
Definition tag_map : string := "tag:yaml.org,2002:map".
Definition tag_tuple : string := "tag:yaml.org,2002:python/tuple".
Definition tag_object : string := "tag:yaml.org,2002:python/object:__main__.BlankLine".

Inductive pytype := TStr | TDict | TList | TTuple | TBlankLine.

Definition type_of (v : value) : pytype :=
  match v with
  | VStr _ => TStr
  | VDict _ => TDict
  | VList _ => TList
  | VTuple _ => TTuple
  | VBlankLine => TBlankLine
  end.

#[global] Instance pytype_eq_dec : EqDecision pytype.
Proof. solve_decision. Defined.

(** Function objects that can serve as representers: PyYAML's own, and the
    three functions defined by the source module. *)
Inductive func :=
| F_represent_str
| F_represent_list
| F_represent_dict
| F_represent_tuple
| F_represent_object
| F_str_presenter
| F_blank_line_presenter
| F_represent_list_with_extra_blank_lines.

(** A dumper class: the registry [represent_data] dispatches on (the
    representer in effect for each type), and the method attribute
    [represent_list], which is a different slot. *)
Record dumper_class := {
  yaml_representers : pytype -> func;
  represent_list : func
}.

(** [yaml.Dumper] as PyYAML ships it. *)
Definition Dumper : dumper_class := {|
  yaml_representers := fun t =>
    match t with
    | TStr => F_represent_str
    | TList => F_represent_list
    | TDict => F_represent_dict
    | TTuple => F_represent_tuple
    | TBlankLine => F_represent_object
    end;
  represent_list := F_represent_list
|}.

(** [cls.add_representer(data_type, representer)] writes the registry. *)
Definition add_representer (t : pytype) (f : func) (c : dumper_class)
  : dumper_class :=
  {| yaml_representers := fun t' => if decide (t' = t) then f
                                     else yaml_representers c t';
     represent_list := represent_list c |}.

(** [cls.represent_list = f] rebinds the attribute and nothing else. *)
Definition set_represent_list (f : func) (c : dumper_class) : dumper_class :=
  {| yaml_representers := yaml_representers c; represent_list := f |}.

(** The module's top-level statements, in order. *)
Definition BlankLineStepsDumper_declared : dumper_class := Dumper.
Definition BlankLineStepsDumper_str : dumper_class :=
  add_representer TStr F_str_presenter BlankLineStepsDumper_declared.
Definition BlankLineStepsDumper_blank : dumper_class :=
  add_representer TBlankLine F_blank_line_presenter BlankLineStepsDumper_str.
Definition original_list_representer : func :=
  represent_list BlankLineStepsDumper_blank.
Definition BlankLineStepsDumper : dumper_class :=
  set_represent_list F_represent_list_with_extra_blank_lines
                     BlankLineStepsDumper_blank.

(** A dumper instance.  [recursive_objects] is [None] when the instance has
    no attribute of that name. *)
Record dumper := {
  cls : dumper_class;
  recursive_objects : option (list value)
}.

(** The instance [yaml.dump] creates: the initialisers of the emitter, the
    serializer, the representer and the resolver set no
    [recursive_objects]. *)
Definition new_dumper (c : dumper_class) : dumper :=
  {| cls := c; recursive_objects := None |}.

(** [dumper.represent_scalar(tag, value, style)], default style unset. *)
Definition represent_scalar (tag value : string) (style : option scalar_style)
  : node := ScalarNode tag value style.

Definition str_presenter (data : string) : node :=
  if contains LF data
  then represent_scalar tag_str data (Some Literal)
  else represent_scalar tag_str data None.

Definition blank_line_presenter (_ : value) : node :=
  represent_scalar tag_str EmptyString (Some Literal).

(** [x is y]; only list objects carry an identity in this model. *)
Definition is_same (x y : value) : bool :=
  match x, y with
  | VList a, VList b => Nat.eqb a b
  | _, _ => false
  end.

(** The body of the [for obj in self.recursive_objects] loop: a 2-tuple
    whose first component is a dict with a key ['steps'] bound to [data]. *)
Definition names_steps (data : value) (obj : value) : bool :=
  match obj with
  | VTuple [parent; _] =>
      match parent with
      | VDict items =>
          existsb (fun kv => String.eqb (fst kv) "steps" && is_same (snd kv) data)
                  items
      | _ => false
      end
  | _ => false
  end.

(** The [for item in data] loop that fills [new_data]. *)
Fixpoint blank_loop (new_data : value) (items : list value) (first : bool)
  : M unit :=
  match items with
  | [] => mret tt
  | item :: rest =>
      _ ← (if negb first then list_append new_data VBlankLine else mret tt);
      _ ← list_append new_data item;
      blank_loop new_data rest false
  end.

Section Hook.
(** How a function object is applied to [(self, data)]. *)
Variable call : func -> dumper -> value -> M node.

Definition represent_list_with_extra_blank_lines
           (self : dumper) (data : value) : M node :=
  match recursive_objects self with
  | None => raise AttributeError
  | Some objs =>
      let is_steps := existsb (names_steps data) objs in
      if is_steps then
        match data with
        | VList a =>
            items ← read_list a;
            if 1 <? Z.of_nat (length items) then
              new_data ← new_list [];
              _ ← blank_loop new_data items true;
              call original_list_representer self new_data
            else call original_list_representer self data
        | _ => raise TypeError
        end
      else call original_list_representer self data
  end.
End Hook.

(** Applying a function object as a representer.  [fuel] bounds the depth
    of nested calls (Python's recursion limit); [represent_data] is the
    registry dispatch of [BaseRepresenter.represent_data].  PyYAML's alias
    bookkeeping is left out: it only matters when one container object is
    reached twice. *)
Fixpoint call (fuel : nat) (f : func) (self : dumper) (data : value)
         {struct fuel} : M node :=
  match fuel with
  | O => raise RecursionError
  | S fuel' =>
      let represent_data (d : value) : M node :=
        call fuel' (yaml_representers (cls self) (type_of d)) self d in
      match f with
      | F_represent_str =>
          match data with
          | VStr s => mret (represent_scalar tag_str s None)
          | _ => raise TypeError
          end
      | F_represent_list =>
          match data with
          | VList a =>
              items ← read_list a;
              nodes ← mapM represent_data items;
              mret (SequenceNode tag_seq nodes)
          | _ => raise TypeError
          end
      | F_represent_tuple =>
          match data with
          | VTuple items =>
              nodes ← mapM represent_data items;
              mret (SequenceNode tag_tuple nodes)
          | _ => raise TypeError
          end
      | F_represent_dict =>
          match data with
          | VDict items =>
              pairs ← mapM (fun kv =>
                              node_key ← represent_data (VStr (fst kv));
                              node_value ← represent_data (snd kv);
                              mret (node_key, node_value)) items;
              mret (MappingNode tag_map pairs)
          | _ => raise TypeError
          end
      | F_represent_object => mret (MappingNode tag_object [])
      | F_str_presenter =>
          match data with
          | VStr s => mret (str_presenter s)
          | _ => raise TypeError
          end
      | F_blank_line_presenter => mret (blank_line_presenter data)
      | F_represent_list_with_extra_blank_lines =>
          represent_list_with_extra_blank_lines (call fuel') self data
      end
  end.

Definition represent_data (fuel : nat) (self : dumper) (data : value)
  : M node :=
  call fuel (yaml_representers (cls self) (type_of data)) self data.

(** The representer half of [yaml.dump(data, Dumper=c)] (with
    [sort_keys=False]): a fresh dumper instance represents [data]. *)
Definition represent (fuel : nat) (c : dumper_class) (data : value) : M node :=
  represent_data fuel (new_dumper c) data.

(** The blank-line scalar, and its test. *)
Definition blank_node : node := ScalarNode tag_str EmptyString (Some Literal).

Definition is_blank_node (n : node) : bool :=
  match n with
  | ScalarNode _ EmptyString (Some Literal) => true
  | _ => false
  end.

(** Navigation in a node graph: the value under a plain key of a mapping. *)
Fixpoint mapping_get (k : string) (items : list (node * node)) : option node :=
  match items with
  | [] => None
  | (ScalarNode _ k' _, v) :: rest =>
      if String.eqb k' k then Some v else mapping_get k rest
  | _ :: rest => mapping_get k rest
  end.

Definition node_get (k : string) (n : node) : option node :=
  match n with
  | MappingNode _ items => mapping_get k items
  | _ => None
  end.

(** All sequence nodes of a graph, with their items. *)
Fixpoint sequences (n : node) : list (list node) :=
  match n with
  | ScalarNode _ _ _ => []
  | SequenceNode _ items => items :: flat_map sequences items
  | MappingNode _ items =>
      flat_map (fun kv => sequences (fst kv) ++ sequences (snd kv)) items
  end.

End Yaml.

(* ===================================================================== *)
(** ** PyYAML's emitter: the style a scalar is written in *)
(* ===================================================================== *)

Module Emitter.
Import PyStr Yaml.

(** Characters are compared by code point; this model has the code points
    below 256. *)
Definition code (ch : ascii) : nat := Ascii.nat_of_ascii ch.

Definition has_code (codes : list nat) (ch : ascii) : bool :=
  existsb (Nat.eqb (code ch)) codes.

(** [ch in '\0 \t\r\n\x85\u2028\u2029']; the last two lie above 255. *)
Definition is_whitespace : ascii -> bool := has_code [0; 32; 9; 13; 10; 133]%nat.

(** [ch in '\n\x85\u2028\u2029']; the last two lie above 255. *)
Definition is_break : ascii -> bool := has_code [10; 133]%nat.

Definition is_space (ch : ascii) : bool := Ascii.eqb ch " ".

(** [ch == '\n' or '\x20' <= ch <= '\x7E']. *)
Definition is_printable (ch : ascii) : bool :=
  Ascii.eqb ch LF || (Nat.leb 32 (code ch) && Nat.leb (code ch) 126).

Record ScalarAnalysis := {
  empty : bool;
  multiline : bool;
  allow_flow_plain : bool;
  allow_block_plain : bool;
  allow_single_quoted : bool;
  allow_double_quoted : bool;
  allow_block : bool
}.

(** The local variables of [analyze_scalar] that its loop updates. *)
Record scan_state := {
  block_indicators : bool;
  flow_indicators : bool;
  line_breaks : bool;
  special_characters : bool;
  leading_space : bool;
  leading_break : bool;
  trailing_space : bool;
  trailing_break : bool;
  break_space : bool;
  space_break : bool;
  preceded_by_whitespace : bool;
  previous_space : bool;
  previous_break : bool
}.

(** One round of the [while index < len(scalar)] loop, at the character
    [ch]; [first] is [index == 0], [last] is [index == len(scalar) - 1] and
    [followed_by_whitespace] is the variable of that name.  The dumper is
    created without [allow_unicode], so every character that is not
    printable counts as special. *)
Definition scan_char (first last followed_by_whitespace : bool) (ch : ascii)
           (s : scan_state) : scan_state :=
  let leading_indicator :=
    first && contains ch ("#,[]{}&*!|>'%@`" +:+ dq) in
  let question_or_colon := first && contains ch "?:" in
  let leading_dash := first && Ascii.eqb ch "-" && followed_by_whitespace in
  let inner_flow := negb first && contains ch ",?[]{}" in
  let inner_colon := negb first && Ascii.eqb ch ":" in
  let inner_hash :=
    negb first && Ascii.eqb ch "#" && preceded_by_whitespace s in
  {| block_indicators :=
       block_indicators s || leading_indicator
       || (question_or_colon && followed_by_whitespace) || leading_dash
       || (inner_colon && followed_by_whitespace) || inner_hash;
     flow_indicators :=
       flow_indicators s || leading_indicator || question_or_colon
       || leading_dash || inner_flow || inner_colon || inner_hash;
     line_breaks := line_breaks s || is_break ch;
     special_characters := special_characters s || negb (is_printable ch);
     leading_space := leading_space s || (is_space ch && first);
     leading_break :=
       leading_break s || (negb (is_space ch) && is_break ch && first);
     trailing_space := trailing_space s || (is_space ch && last);
     trailing_break :=
       trailing_break s || (negb (is_space ch) && is_break ch && last);
     break_space := break_space s || (is_space ch && previous_break s);
     space_break :=
       space_break s || (negb (is_space ch) && is_break ch && previous_space s);
     preceded_by_whitespace := is_whitespace ch;
     previous_space := is_space ch;
     previous_break := negb (is_space ch) && is_break ch |}.

Fixpoint scan (first : bool) (scalar : string) (s : scan_state) : scan_state :=
  match scalar with
  | EmptyString => s
  | String ch rest =>
      let last := match rest with EmptyString => true | _ => false end in
      let followed_by_whitespace :=
        match rest with
        | EmptyString => true
        | String next _ => is_whitespace next
        end in
      scan false rest (scan_char first last followed_by_whitespace ch s)
  end.

Definition analyze_scalar (scalar : string) : ScalarAnalysis :=
  match scalar with
  | EmptyString =>
      {| empty := true; multiline := false;
         allow_flow_plain := false; allow_block_plain := true;
         allow_single_quoted := true; allow_double_quoted := true;
         allow_block := false |}
  | _ =>
      let document_indicator :=
        String.prefix "---" scalar || String.prefix "..." scalar in
      let s := scan true scalar
                 {| block_indicators := document_indicator;
                    flow_indicators := document_indicator;
                    line_breaks := false; special_characters := false;
                    leading_space := false; leading_break := false;
                    trailing_space := false; trailing_break := false;
                    break_space := false; space_break := false;
                    preceded_by_whitespace := true;
                    previous_space := false; previous_break := false |} in
      let edge := leading_space s || leading_break s
                  || trailing_space s || trailing_break s in
      let double_only := space_break s || special_characters s in
      {| empty := false; multiline := line_breaks s;
         allow_flow_plain :=
           negb edge && negb (break_space s) && negb double_only
           && negb (line_breaks s) && negb (flow_indicators s);
         allow_block_plain :=
           negb edge && negb (break_space s) && negb double_only
           && negb (line_breaks s) && negb (block_indicators s);
         allow_single_quoted := negb (break_space s) && negb double_only;
         allow_double_quoted := true;
         allow_block := negb (trailing_space s) && negb double_only |}
  end.

(** The style the emitter writes a scalar in; [Plain] is the style ['']. *)
Inductive written_style :=
| Plain
| Written (style : scalar_style).

(** [Emitter.choose_scalar_style], on the emitter's [canonical],
    [flow_level] and [simple_key_context], the event's [implicit[0]] and
    [style], and the analysis of the event's value. *)
Definition choose_scalar_style (canonical : bool) (flow_level : nat)
           (simple_key_context : bool) (implicit0 : bool)
           (style : option scalar_style) (analysis : ScalarAnalysis)
  : written_style :=
  let in_flow := negb (Nat.eqb flow_level 0) in
  let is_style (x : scalar_style) :=
    match style, x with
    | Some DoubleQuoted, DoubleQuoted | Some SingleQuoted, SingleQuoted
    | Some Literal, Literal | Some Folded, Folded => true
    | _, _ => false
    end in
  let no_style := match style with None => true | Some _ => false end in
  if is_style DoubleQuoted || canonical then Written DoubleQuoted
  else if no_style && implicit0
          && negb (simple_key_context
                   && (empty analysis || multiline analysis))
          && ((in_flow && allow_flow_plain analysis)
              || (negb in_flow && allow_block_plain analysis))
  then Plain
  else if (is_style Literal || is_style Folded)
          && negb in_flow && negb simple_key_context && allow_block analysis
  then match style with Some st => Written st | None => Plain end
  else if (no_style || is_style SingleQuoted)
          && allow_single_quoted analysis
          && negb (simple_key_context && multiline analysis)
  then Written SingleQuoted
  else Written DoubleQuoted.





End Emitter.

(* ===================================================================== *)
(** ** [main] over the operating system *)
(* ===================================================================== *)

Module Main.
Import Py Workflow Yaml.

(** The errors [open] and a write can raise. *)
Inductive os_error :=
| FileNotFoundError
| IsADirectoryError
| PermissionError
| OtherOSError.

(** The operating system as [main] uses it.  How paths are spelled and
    resolved (directories, links, permissions) is the system's business:
    [os_path_exists] is [os.path.exists], [os_open_w] is
    [open(path, 'w', encoding='utf-8')], which either raises and leaves the
    world as it is, or gives a file object and the world with the file
    created or truncated; [os_write] is what writing the dumped text
    through the file object does (a write can fail after part of the text),
    and [os_close] is the end of the [with] block. *)
Record system := {
  world : Type;
  file : Type;
  os_path_exists : world -> string -> bool;
  os_open_w : world -> string -> os_error + file * world;
  os_write : world -> file -> string -> world * option os_error;
  os_close : world -> file -> world
}.

(** How the process ends: [sys.exit(code)] or falling off the end of
    [main] (code 0), or an uncaught exception. *)
Inductive status :=
| Exit (code : Z)
| Uncaught (e : exn)
| UncaughtOS (e : os_error).

(** What [main] did, in order. *)
Inductive event :=
| Built (workflow : value)
| Opened (path : string)
| Dumped (path : string) (text : string).

Record outcome (W : Type) := {
  exit_status : status;
  final : W;
  trace : list event
}.
Arguments exit_status {W} _.
Arguments final {W} _.
Arguments trace {W} _.

Section WithSystem.
(** The system, PyYAML's serializer and emitter (from a node graph to
    text), and the call depth available to the representer. *)
Variable O : system.
Variable emit : node -> string.
Variable fuel : nat.

Definition main (args : Namespace) (w : world O) : outcome (world O) :=
  if os_path_exists O w (outfile args) && negb (force args) then
    {| exit_status := Exit 1; final := w; trace := [] |}
  else
    match build_workflow args [] with
    | Raise e => {| exit_status := Uncaught e; final := w; trace := [] |}
    | Ok (workflow, st) =>
        match os_open_w O w (outfile args) with
        | inl err =>
            {| exit_status := UncaughtOS err; final := w;
               trace := [Built workflow] |}
        | inr (f, opened) =>
            match represent fuel BlankLineStepsDumper workflow st with
            | Raise e =>
                {| exit_status := Uncaught e; final := os_close O opened f;
                   trace := [Built workflow; Opened (outfile args)] |}
            | Ok (doc, _) =>
                let text := emit doc in
                let written := os_write O opened f text in
                {| exit_status := match snd written with
                                  | None => Exit 0
                                  | Some err => UncaughtOS err
                                  end;
                   final := os_close O (fst written) f;
                   trace := [Built workflow; Opened (outfile args);
                             Dumped (outfile args) text] |}
            end
        end
    end.
End WithSystem.

End Main.

(* ===================================================================== *)
(** ** A system of directories and regular files *)
(* ===================================================================== *)

Module Disk.
Import PyStr Main.

(** Directories and regular files, with paths taken as they are spelled. *)
Record disk := {
  dirs : gset string;
  files : gmap string string
}.

(** The directory part of a path: what stands before its last ['/']. *)
Definition dirname (path : string) : option string :=
  let i := rfind "/" path in
  if 0 <? i then Some (slice_to i path) else None.

Definition disk_exists (d : disk) (path : string) : bool :=
  bool_decide (path ∈ dirs d) || bool_decide (is_Some (files d !! path)).

Definition disk_open_w (d : disk) (path : string) : os_error + string * disk :=
  if bool_decide (path ∈ dirs d) then inl IsADirectoryError
  else
    let opened := inr (path, {| dirs := dirs d;
                                files := <[path := EmptyString]> (files d) |}) in
    match dirname path with
    | Some dir => if bool_decide (dir ∈ dirs d) then opened
                  else inl FileNotFoundError
    | None => opened
    end.

Definition disk_write (d : disk) (f : string) (text : string)
  : disk * option os_error :=
  ({| dirs := dirs d;
      files := <[f := default EmptyString (files d !! f) +:+ text]> (files d) |},
   None).

Definition disk_system : system := {|
  world := disk;
  file := string;
  os_path_exists := disk_exists;
  os_open_w := disk_open_w;
  os_write := disk_write;
  os_close := fun d _ => d
|}.

End Disk.

(* ===================================================================== *)
(** ** Vocabulary of the statements *)
(* ===================================================================== *)

Module Shape.
Import PyStr Py Workflow Yaml.

(** The two steps one slug contributes. *)
Definition steps_of_slug (slug_path : string) : list value :=
  [grading_step (slug_clean_of slug_path) (slug_name_of slug_path);
   export_step (slug_name_of slug_path)].

(** The job's step list of a built document: follow
    [workflow['jobs']['run-autograding-tests']['steps']] and read the list
    object it refers to. *)
Definition document_steps (r : result (value * list (list value)))
  : option (list value) :=
  match r with
  | Ok (workflow, st) =>
      match job_steps workflow st with
      | Ok (VList a, _) => st !! a
      | _ => None
      end
  | Raise _ => None
  end.

(** Field access in a step, and along a path of keys. *)
Definition field (k : string) (v : value) : option value :=
  match v with
  | VDict items => dict_get k items
  | _ => None
  end.

Definition field2 (k1 k2 : string) (v : value) : option value :=
  match field k1 v with
  | Some v' => field k2 v'
  | None => None
  end.

(** The names of a list without repetition, each at its first occurrence. *)
Fixpoint distinct (l : list string) : list string :=
  match l with
  | [] => []
  | x :: l' => x :: List.filter (fun y => negb (String.eqb y x)) (distinct l')
  end.

Definition env_entry (s : string) : string * value :=
  (env_key s, VStr (env_template s)).

(** [y] is none of the names of [acc]. *)
Definition notin (acc : list string) (y : string) : bool :=
  negb (existsb (String.eqb y) acc).

(** A slug made of path separators only. *)
Fixpoint only_separators (s : string) : bool :=
  match s with
  | EmptyString => true
  | String a s' => Ascii.eqb a "/" && only_separators s'
  end.

(** What the [for item in data] loop leaves in [new_data]. *)
Fixpoint with_blanks (first : bool) (items : list value) : list value :=
  match items with
  | [] => []
  | item :: rest =>
      (if first then [] else [VBlankLine]) ++ item :: with_blanks false rest
  end.

(** The node of a value that contains no list object, under the registry
    of [BlankLineStepsDumper]. *)
Fixpoint node_of (v : value) : node :=
  match v with
  | VStr s => str_presenter s
  | VDict items =>
      MappingNode tag_map
        (map (fun kv => (str_presenter (fst kv), node_of (snd kv))) items)
  | VTuple items => SequenceNode tag_tuple (map node_of items)
  | VBlankLine => blank_node
  | VList _ => SequenceNode tag_seq []
  end.

(** Values without list objects, of nesting depth at most [d]. *)
Fixpoint flat (d : nat) (v : value) : bool :=
  match d with
  | O => false
  | S d' =>
      match v with
      | VStr _ | VBlankLine => true
      | VDict items => forallb (fun kv => flat d' (snd kv)) items
      | VTuple items => forallb (flat d') items
      | VList _ => false
      end
  end.

Definition plain (s : string) : node := ScalarNode tag_str s None.

(** The node graph of the document, given the nodes of its steps. *)
Definition document_node (steps : list node) : node :=
  MappingNode tag_map
    [(plain "name", plain "Autograding Tests");
     (plain "on", MappingNode tag_map
        [(plain "push", MappingNode tag_map []);
         (plain "repository_dispatch", MappingNode tag_map [])]);
     (plain "permissions", MappingNode tag_map
        [(plain "checks", plain "write");
         (plain "actions", plain "read");
         (plain "contents", plain "read")]);
     (plain "jobs", MappingNode tag_map
        [(plain "run-autograding-tests", MappingNode tag_map
            [(plain "container", MappingNode tag_map
                [(plain "image", plain "python:3.12-slim")]);
             (plain "runs-on", plain "ubuntu-latest");
             (plain "steps", SequenceNode tag_seq steps)])])].

(** Where the token of position [i] starts in a list of names joined with
    one-character separators. *)
Fixpoint token_offset (names : list string) (i : nat) : nat :=
  match names, i with
  | x :: rest, S i' => (String.length x + 1 + token_offset rest i')%nat
  | _, _ => 0%nat
  end.

(** A computation that leaves every existing list object as it is: the
    store it returns is the one it was given, with new objects after it. *)
Definition extends {A} (m : M A) : Prop :=
  forall (st : store) (a : A) (st' : store),
    m st = Ok (a, st') -> exists ext : store, st' = st ++ ext.

Definition node_style (n : node) : option (option scalar_style) :=
  match n with
  | ScalarNode _ _ style => Some style
  | _ => None
  end.

End Shape.

(* ===================================================================== *)
(** ** Further vocabulary: strings, markers, identifiers *)
(* ===================================================================== *)

Module Terms.
Import PyStr Py Workflow Yaml Shape.

(** [k] copies of a character. *)
Fixpoint copies (k : nat) (c : ascii) : string :=
  match k with
  | O => EmptyString
  | S k' => String c (copies k' c)
  end.

(** The last character of a string, if it has one. *)
Fixpoint last_char (s : string) : option ascii :=
  match s with
  | EmptyString => None
  | String a EmptyString => Some a
  | String _ s' => last_char s'
  end.

(** An instance of [BlankLine]. *)
Definition is_marker (v : value) : bool :=
  match v with
  | VBlankLine => true
  | _ => false
  end.

(** The identifiers of the steps that carry one, in step order. *)
Definition step_ids (steps : list value) : list value :=
  omap (field "id") steps.

Definition is_mapping (n : node) : bool :=
  match n with
  | MappingNode _ _ => true
  | _ => false
  end.

(** A computation that returns the store it was given. *)
Definition unchanged {A} (m : M A) : Prop :=
  forall (st : store) (a : A) (st' : store), m st = Ok (a, st') -> st' = st.

End Terms.

(* ===================================================================== *)
(** ** Name derivation *)
(* ===================================================================== *)

Module NameFacts.
Import PyStr.



Example name_of_directory : slug_name_of "example/" = "example".
Proof. reflexivity. Qed.

Example name_of_file : slug_name_of "example/test2.py" = "test2".
Proof. reflexivity. Qed.

Example name_keeps_inner_suffix : slug_name_of "x/archive.tar.gz" = "archive.tar".
Proof. reflexivity. Qed.

Example name_of_dotfile : slug_name_of "a/.bashrc" = ".bashrc".
Proof. reflexivity. Qed.


End NameFacts.

(* ===================================================================== *)
(** ** The builder *)
(* ===================================================================== *)

Module BuildFacts.
Import PyStr Py Workflow Shape.

Lemma job_steps_literal (steps : value) (st : store) :
  job_steps (workflow_literal steps) st = Ok (steps, st).
Proof. reflexivity. Qed.

Lemma list_append_ok (a : addr) (x : value) (items : list value) (st : store) :
  st !! a = Some items ->
  list_append (VList a) x st = Ok (tt, <[a := items ++ [x]]> st).
Proof. intros H. unfold list_append. by rewrite H. Qed.

(** The loop appends the two steps of each slug, in order, to the list
    object the document refers to, and records the derived names. *)
Lemma slug_loop_spec (slugs : list string) :
  forall (a : addr) (names : list string) (items : list value) (st : store),
    st !! a = Some items ->
    slug_loop (workflow_literal (VList a)) slugs names st
    = Ok (names ++ map slug_name_of slugs,
          <[a := items ++ flat_map steps_of_slug slugs]> st).
Proof.
  induction slugs as [|slug rest IH]; intros a names items st Hst.
  - cbn. rewrite !app_nil_r. by rewrite list_insert_id.
  - cbn [slug_loop]. unfold mbind, M_bind.
    set (g := grading_step (rstrip "/" slug) (PyPath.stem (rstrip "/" slug))).
    set (e := export_step (PyPath.stem (rstrip "/" slug))).
    rewrite job_steps_literal, (list_append_ok _ _ items) by done.
    rewrite job_steps_literal.
    assert (Hlt : (a < length st)%nat) by (by eapply lookup_lt_Some).
    rewrite (list_append_ok _ _ (items ++ [g])) by (by apply list_lookup_insert_eq).
    rewrite (IH a _ ((items ++ [g]) ++ [e]))
      by (apply list_lookup_insert_eq; by rewrite length_insert).
    rewrite !list_insert_insert_eq. cbn [map flat_map].
    unfold steps_of_slug at 2. fold (slug_clean_of slug) in g, e.
    fold (slug_name_of slug) in g, e. subst g e.
    rewrite <- !app_assoc. reflexivity.
Qed.

(** The builder never raises; the document refers to one fresh list
    object, which holds the steps. *)
Lemma build_workflow_spec (args : Namespace) (st0 : store) :
  build_workflow args st0
  = Ok (workflow_literal (VList (length st0)),
        st0 ++ [[checkout_step; install_step]
                  ++ flat_map steps_of_slug (slugs args)
                  ++ [reporter_step (map slug_name_of (slugs args))]]).
Proof.
  unfold build_workflow, mbind, M_bind, new_list.
  assert (Hat : (st0 ++ [[checkout_step; install_step]]) !! length st0
                = Some [checkout_step; install_step]).
  { rewrite lookup_app_r by lia. by rewrite Nat.sub_diag. }
  rewrite (slug_loop_spec _ _ _ _ _ Hat). rewrite job_steps_literal.
  rewrite (list_append_ok _ _ ([checkout_step; install_step]
                                 ++ flat_map steps_of_slug (slugs args))).
  2:{ apply list_lookup_insert_eq. rewrite length_app. cbn. lia. }
  rewrite list_insert_insert_eq.
  replace (length st0) with (length st0 + 0)%nat at 2 by lia.
  rewrite insert_app_r. cbn. reflexivity.
Qed.

Lemma document_steps_spec (args : Namespace) (st0 : store) :
  document_steps (build_workflow args st0)
  = Some ([checkout_step; install_step]
            ++ flat_map steps_of_slug (slugs args)
            ++ [reporter_step (map slug_name_of (slugs args))]).
Proof.
  rewrite build_workflow_spec. unfold document_steps.
  rewrite job_steps_literal. rewrite lookup_app_r by lia.
  by rewrite Nat.sub_diag.
Qed.

Lemma length_flat_map_steps (slugs : list string) :
  length (flat_map steps_of_slug slugs) = (2 * length slugs)%nat.
Proof. induction slugs as [|s l IH]; cbn in *; lia. Qed.

(** C1. For every non-empty list of slugs, the job's step list holds the
    two scaffold steps (checkout, dependency install), then for each slug
    in input order its grading step followed by its result-export step,
    then one reporter step: [2 + 2 * len(S) + 1] entries. *)
Theorem steps_shape (args : Namespace) (st0 : store) :
  slugs args <> [] ->
  exists steps : list value,
    document_steps (build_workflow args st0) = Some steps /\
    steps = [checkout_step; install_step]
              ++ flat_map (fun slug_path =>
                   [grading_step (slug_clean_of slug_path) (slug_name_of slug_path);
                    export_step (slug_name_of slug_path)]) (slugs args)
              ++ [reporter_step (map slug_name_of (slugs args))] /\
    length steps = (2 + 2 * length (slugs args) + 1)%nat.
Proof.
  intros _. eexists. split; [apply document_steps_spec|]. split; [done|].
  rewrite !length_app, length_flat_map_steps. cbn. lia.
Qed.

Lemma steps_shape_witness :
  exists steps : list value,
    document_steps (build_workflow
      {| slugs := ["example/"; "example/test2.py"]; force := false;
         outfile := "out.yml" |} []) = Some steps /\
    steps = [checkout_step; install_step;
             grading_step "example" "example"; export_step "example";
             grading_step "example/test2.py" "test2"; export_step "test2";
             reporter_step ["example"; "test2"]] /\
    length steps = 7%nat.
Proof.
  apply (steps_shape {| slugs := ["example/"; "example/test2.py"];
                        force := false; outfile := "out.yml" |} []).
  discriminate.
Defined.


(** *** The reporter step *)

Lemma reporter_is_last (args : Namespace) (st0 : store) :
  exists before : list value,
    document_steps (build_workflow args st0)
    = Some (before ++ [reporter_step (map slug_name_of (slugs args))]).
Proof.
  exists ([checkout_step; install_step] ++ flat_map steps_of_slug (slugs args)).
  rewrite document_steps_spec. by rewrite <- app_assoc.
Qed.

(** *** The joined names *)

Lemma join_is_concat (sep : string) (l : list string) :
  join sep l = String.concat sep l.
Proof.
  induction l as [|x l IH]; [done|]. destruct l as [|y l]; [done|].
  change (join sep (x :: y :: l)) with (x +:+ sep +:+ join sep (y :: l)).
  by rewrite IH.
Qed.

Lemma substring_whole (x : string) :
  String.substring 0 (String.length x) x = x.
Proof. induction x as [|a x IH]; [done|]. cbn. by rewrite IH. Qed.

Lemma substring_head (x t : string) :
  String.substring 0 (String.length x) (x +:+ t) = x.
Proof.
  induction x as [|a x IH]; [by destruct t|].
  change (String a x +:+ t) with (String a (x +:+ t)). cbn. by rewrite IH.
Qed.

Lemma substring_past (x t : string) (k n : nat) :
  String.substring (String.length x + k) n (x +:+ t) = String.substring k n t.
Proof.
  induction x as [|a x IH]; [done|].
  change (String a x +:+ t) with (String a (x +:+ t)). exact IH.
Qed.

Lemma get_past (x t : string) (k : nat) :
  String.get (String.length x + k) (x +:+ t) = String.get k t.
Proof.
  induction x as [|a x IH]; [done|].
  change (String a x +:+ t) with (String a (x +:+ t)). exact IH.
Qed.

(** Every name stands in the joined string at its offset. *)
Lemma join_token (names : list string) :
  forall (i : nat) (name : string),
    names !! i = Some name ->
    String.substring (token_offset names i) (String.length name)
                     (join " " names) = name.
Proof.
  induction names as [|x rest IH]; intros i name Hi; [done|].
  destruct i as [|i].
  - injection Hi as <-. cbn [token_offset].
    destruct rest as [|y rest]; [apply substring_whole|].
    change (join " " (x :: y :: rest))
      with (x +:+ " " +:+ join " " (y :: rest)).
    apply substring_head.
  - destruct rest as [|y rest]; [done|].
    change (join " " (x :: y :: rest))
      with (x +:+ String " " (join " " (y :: rest))).
    change (token_offset (x :: y :: rest) (S i))
      with (String.length x + 1 + token_offset (y :: rest) i)%nat.
    replace (String.length x + 1 + token_offset (y :: rest) i)%nat
      with (String.length x + S (token_offset (y :: rest) i))%nat by lia.
    rewrite substring_past.
    change (String.substring (S (token_offset (y :: rest) i))
              (String.length name) (String " " (join " " (y :: rest))))
      with (String.substring (token_offset (y :: rest) i)
              (String.length name) (join " " (y :: rest))).
    by apply IH.
Qed.

(** A space stands right before every token but the first. *)
Lemma join_separator (names : list string) :
  forall i : nat,
    (S i < length names)%nat ->
    String.get (token_offset names (S i) - 1) (join " " names)
    = Some " "%char.
Proof.
  induction names as [|x rest IH]; intros i Hi; [cbn in Hi; lia|].
  destruct rest as [|y rest]; [cbn in Hi; lia|].
  change (join " " (x :: y :: rest))
    with (x +:+ String " " (join " " (y :: rest))).
  change (token_offset (x :: y :: rest) (S i))
    with (String.length x + 1 + token_offset (y :: rest) i)%nat.
  destruct i as [|i].
  - change (token_offset (y :: rest) 0) with 0%nat.
    replace (String.length x + 1 + 0 - 1)%nat
      with (String.length x + 0)%nat by lia.
    by rewrite get_past.
  - assert (Hpos : (1 <= token_offset (y :: rest) (S i))%nat).
    { change (token_offset (y :: rest) (S i))
        with (String.length y + 1 + token_offset rest i)%nat. lia. }
    replace (String.length x + 1 + token_offset (y :: rest) (S i) - 1)%nat
      with (String.length x + S (token_offset (y :: rest) (S i) - 1))%nat
      by lia.
    rewrite get_past.
    change (String.get (S (token_offset (y :: rest) (S i) - 1))
              (String " " (join " " (y :: rest))))
      with (String.get (token_offset (y :: rest) (S i) - 1)
              (join " " (y :: rest))).
    apply IH. cbn [length] in *. lia.
Qed.

(** C7. Duplicate slugs are neither rejected nor deduplicated: for every
    slug list the builder succeeds and the loop's list of produced names
    has one name per slug occurrence, in input order.  The [runners]
    parameter of the reporter step is the standard space-separated
    concatenation of all of them: the name of the slug at position [i]
    stands in it at the offset of the [i]-th token, whether or not it
    occurred before, and a space stands right before every token but the
    first. *)
Theorem runners_joins_all_names (args : Namespace) (st0 : store) :
  (exists st : store,
      slug_loop (workflow_literal (VList (length st0))) (slugs args) []
                (st0 ++ [[checkout_step; install_step]])
      = Ok (map slug_name_of (slugs args), st)) /\
  exists (before : list value) (reporter : value) (runners : string),
    document_steps (build_workflow args st0) = Some (before ++ [reporter]) /\
    field "name" reporter = Some (VStr "Autograding Reporter") /\
    field2 "with" "runners" reporter = Some (VStr runners) /\
    runners = String.concat " " (map slug_name_of (slugs args)) /\
    (forall (i : nat) (slug_path : string),
        slugs args !! i = Some slug_path ->
        String.substring (token_offset (map slug_name_of (slugs args)) i)
                         (String.length (slug_name_of slug_path)) runners
        = slug_name_of slug_path) /\
    (forall i : nat,
        (S i < length (slugs args))%nat ->
        String.get (token_offset (map slug_name_of (slugs args)) (S i) - 1)
                   runners = Some " "%char).
Proof.
  split.
  - eexists. rewrite (slug_loop_spec _ _ _ [checkout_step; install_step]).
    + reflexivity.
    + rewrite lookup_app_r by lia. by rewrite Nat.sub_diag.
  - destruct (reporter_is_last args st0) as [before Hb].
    exists before, (reporter_step (map slug_name_of (slugs args))),
           (join " " (map slug_name_of (slugs args))).
    split; [exact Hb|]. split; [reflexivity|]. split; [reflexivity|].
    split; [apply join_is_concat|]. split.
    + intros i slug_path Hi. apply join_token.
      by rewrite list_lookup_fmap, Hi.
    + intros i Hi. apply join_separator. by rewrite length_map.
Qed.

Lemma runners_joins_all_names_witness :
  exists (before : list value) (reporter : value),
    document_steps (build_workflow
      {| slugs := ["a"; "a"]; force := false; outfile := "out.yml" |} [])
    = Some (before ++ [reporter]) /\
    field2 "with" "runners" reporter = Some (VStr "a a").
Proof.
  destruct (runners_joins_all_names
              {| slugs := ["a"; "a"]; force := false; outfile := "out.yml" |} [])
    as [_ (before & reporter & runners & Hsteps & _ & Hrunners & Hconcat & _)].
  exists before, reporter. split; [exact Hsteps|].
  rewrite Hrunners, Hconcat. reflexivity.
Defined.

(** *** The environment mapping *)

Lemma string_length_app (s t : string) :
  String.length (s +:+ t) = (String.length s + String.length t)%nat.
Proof. induction s as [|a s IH]; simpl; [done|]. by f_equal. Qed.

Lemma string_app_inj_r (u s t : string) : s +:+ u = t +:+ u -> s = t.
Proof.
  revert t. induction s as [|a s IH]; intros [|b t] H; [done| | |].
  - apply (f_equal String.length) in H.
    rewrite !string_length_app in H. simpl in H. lia.
  - apply (f_equal String.length) in H.
    rewrite !string_length_app in H. simpl in H. lia.
  - change (String a (s +:+ u) = String b (t +:+ u)) in H.
    injection H as -> H. f_equal. by apply IH.
Qed.

Lemma env_key_inj (s t : string) : env_key s = env_key t -> s = t.
Proof. apply string_app_inj_r. Qed.

Lemma env_key_eqb (s t : string) :
  String.eqb (env_key s) (env_key t) = String.eqb s t.
Proof.
  destruct (String.eqb s t) eqn:E.
  - apply String.eqb_eq in E as ->. apply String.eqb_refl.
  - apply String.eqb_neq. intros H%env_key_inj. by apply String.eqb_neq in E.
Qed.

Lemma dict_set_present (x : string) (acc : list string) :
  existsb (String.eqb x) acc = true ->
  dict_set (env_key x) (VStr (env_template x)) (map env_entry acc)
  = map env_entry acc.
Proof.
  induction acc as [|y acc IH]; [done|]. cbn [existsb map dict_set].
  unfold env_entry at 1. rewrite env_key_eqb, (String.eqb_sym y x).
  destruct (String.eqb x y) eqn:E; cbn [orb].
  - apply String.eqb_eq in E as ->. reflexivity.
  - intros H. by rewrite (IH H).
Qed.

Lemma dict_set_absent (x : string) (acc : list string) :
  existsb (String.eqb x) acc = false ->
  dict_set (env_key x) (VStr (env_template x)) (map env_entry acc)
  = map env_entry (acc ++ [x]).
Proof.
  induction acc as [|y acc IH]; [done|]. cbn [existsb map dict_set app].
  unfold env_entry at 1. rewrite env_key_eqb, (String.eqb_sym y x).
  destruct (String.eqb x y) eqn:E; cbn [orb]; [done|].
  intros H. by rewrite (IH H).
Qed.

Lemma filter_absorb {A} (p q : A -> bool) (l : list A) :
  (forall y, p y = true -> q y = true) ->
  List.filter p (List.filter q l) = List.filter p l.
Proof.
  intros Hpq. induction l as [|y l IH]; [done|]. cbn.
  destruct (q y) eqn:Hq; cbn.
  - by rewrite IH.
  - destruct (p y) eqn:Hp; [|done]. apply Hpq in Hp. congruence.
Qed.

Lemma filter_notin_snoc (acc : list string) (x : string) (l : list string) :
  List.filter (notin (acc ++ [x])) l
  = List.filter (notin acc) (List.filter (fun y => negb (String.eqb y x)) l).
Proof.
  induction l as [|y l IH]; [done|]. cbn [List.filter].
  unfold notin at 1. rewrite existsb_app. cbn [existsb].
  rewrite orb_false_r, negb_orb.
  destruct (String.eqb y x) eqn:E; cbn [negb andb List.filter].
  - rewrite andb_false_r. exact IH.
  - rewrite andb_true_r. fold (notin acc y).
    destruct (notin acc y); [by rewrite IH | exact IH].
Qed.

Lemma env_fold_spec (names : list string) :
  forall acc : list string,
    fold_left (fun d s => dict_set (env_key s) (VStr (env_template s)) d)
              names (map env_entry acc)
    = map env_entry (acc ++ List.filter (notin acc) (distinct names)).
Proof.
  induction names as [|x names IH]; intros acc.
  - cbn. by rewrite app_nil_r.
  - cbn [fold_left distinct List.filter].
    destruct (existsb (String.eqb x) acc) eqn:E.
    + rewrite dict_set_present by done. rewrite IH.
      unfold notin at 2. rewrite E. cbn [negb].
      rewrite filter_absorb; [done|].
      intros y Hy. apply negb_true_iff, String.eqb_neq. intros ->.
      unfold notin in Hy. by rewrite E in Hy.
    + rewrite dict_set_absent by done. rewrite IH.
      unfold notin at 2. rewrite E. cbn [negb].
      rewrite filter_notin_snoc. by rewrite <- app_assoc.
Qed.

(** The comprehension keeps one entry per distinct name, at the position
    of the name's first occurrence. *)
Lemma env_map_distinct (names : list string) :
  env_map names = map env_entry (distinct names).
Proof.
  unfold env_map. change (@nil (string * value)) with (map env_entry []).
  rewrite (env_fold_spec names []). cbn [app].
  f_equal. clear. induction (distinct names) as [|y l IH]; [done|].
  cbn. by rewrite IH.
Qed.

Lemma distinct_In (x : string) (names : list string) :
  In x (distinct names) <-> In x names.
Proof.
  induction names as [|y names IH]; [done|]. cbn [distinct In].
  rewrite filter_In, IH. split.
  - intros [->|[H _]]; auto.
  - intros [->|H]; [by left|].
    destruct (String.eqb x y) eqn:E.
    + apply String.eqb_eq in E as ->. by left.
    + right. split; [done|]. reflexivity.
Qed.

Lemma distinct_NoDup (names : list string) : List.NoDup (distinct names).
Proof.
  induction names as [|y names IH]; cbn [distinct]; constructor.
  - rewrite filter_In. intros [_ H]. by rewrite String.eqb_refl in H.
  - by apply List.NoDup_filter.
Qed.

Lemma dict_get_env_entry (x : string) (l : list string) :
  In x l ->
  dict_get (env_key x) (map env_entry l) = Some (VStr (env_template x)).
Proof.
  induction l as [|y l IH]; [done|]. cbn [map dict_get].
  unfold env_entry at 1. rewrite env_key_eqb.
  destruct (String.eqb y x) eqn:E.
  - apply String.eqb_eq in E as ->. done.
  - intros [->|H]; [by rewrite String.eqb_refl in E | by apply IH].
Qed.

Lemma env_map_lookup (x : string) (names : list string) :
  In x names ->
  dict_get (env_key x) (env_map names) = Some (VStr (env_template x)).
Proof.
  intros H. rewrite env_map_distinct. apply dict_get_env_entry.
  by apply distinct_In.
Qed.

(** C6, as stated: one entry per produced name, one per occurrence.  It
    fails for the slugs ["a"], ["a"]: two names are produced and the
    mapping has the single key ["a_RESULTS"]. *)
Lemma env_entry_per_occurrence_fails :
  ~ (forall (args : Namespace) (st0 : store),
        exists (before : list value) (reporter : value),
          document_steps (build_workflow args st0) = Some (before ++ [reporter]) /\
          field "env" reporter
          = Some (VDict (map (fun s => (s +:+ "_RESULTS",
                                        VStr ("${{ env." +:+ s +:+ "_RESULTS }}")))
                             (map slug_name_of (slugs args))))).
Proof.
  intros H.
  destruct (H {| slugs := ["a"; "a"]; force := false; outfile := "out.yml" |} [])
    as (before & reporter & Hsteps & Henv).
  rewrite document_steps_spec in Hsteps.
  injection Hsteps as Hsteps.
  apply (f_equal (fun l => last l)) in Hsteps.
  rewrite last_snoc in Hsteps. cbn in Hsteps.
  injection Hsteps as <-. vm_compute in Henv. discriminate.
Qed.

(** C6, amended. The environment mapping of the reporter step has one
    entry per distinct produced name, in the order of first occurrence,
    with key [<name>_RESULTS] and the template that dereferences the shared
    variable of that name; a name produced several times has one entry. *)
Theorem reporter_env_one_entry_per_distinct_name
        (args : Namespace) (st0 : store) :
  exists (before : list value) (reporter : value),
    document_steps (build_workflow args st0) = Some (before ++ [reporter]) /\
    field "env" reporter
    = Some (VDict (map (fun s => (s +:+ "_RESULTS",
                                  VStr ("${{ env." +:+ s +:+ "_RESULTS }}")))
                       (distinct (map slug_name_of (slugs args))))) /\
    List.NoDup (distinct (map slug_name_of (slugs args))) /\
    (forall s : string, In s (distinct (map slug_name_of (slugs args)))
                        <-> In s (map slug_name_of (slugs args))).
Proof.
  destruct (reporter_is_last args st0) as [before Hb].
  exists before, (reporter_step (map slug_name_of (slugs args))).
  split; [exact Hb|]. split; [|split].
  - cbn. by rewrite env_map_distinct.
  - apply distinct_NoDup.
  - intros s. apply distinct_In.
Qed.

(** *** Slugs made of separators *)

Lemma rstrip_only_separators (s : string) :
  only_separators s = true -> rstrip "/" s = EmptyString.
Proof.
  induction s as [|a s IH]; [done|]. cbn [only_separators].
  intros [Ha Hs]%andb_true_iff.
  change (rstrip "/" (String a s)) with
    (match rstrip "/" s with
     | EmptyString => if Ascii.eqb a "/" then EmptyString else String a EmptyString
     | r' => String a r'
     end).
  by rewrite (IH Hs), Ha.
Qed.

(** C10, as stated: the grading step and the result-export step of such a
    slug both have the empty string as name and identifier.  It fails at
    the slug ["/"]: the result-export step is named
    ["Assign file contents to _RESULTS"] and has no identifier. *)
Lemma export_step_empty_name_and_id_fails :
  ~ (forall slug : string,
        only_separators slug = true ->
        exists (steps : list value) (grading export : value),
          document_steps (build_workflow
            {| slugs := [slug]; force := false; outfile := "out.yml" |} [])
          = Some steps /\
          steps !! 2%nat = Some grading /\
          steps !! 3%nat = Some export /\
          field "name" grading = Some (VStr EmptyString) /\
          field "id" grading = Some (VStr EmptyString) /\
          field "name" export = Some (VStr EmptyString) /\
          field "id" export = Some (VStr EmptyString)).
Proof.
  intros H.
  destruct (H "/" eq_refl)
    as (steps & grading & export & Hsteps & _ & Hexport & _ & _ & Hname & _).
  rewrite document_steps_spec in Hsteps. injection Hsteps as <-.
  vm_compute in Hexport. injection Hexport as <-.
  vm_compute in Hname. discriminate Hname.
Qed.

Lemma concat_app (sep : string) (l1 l2 : list string) :
  String.concat sep (l1 ++ l2)
  = String.concat sep l1
      +:+ (match l1, l2 with
           | _ :: _, _ :: _ => sep
           | _, _ => EmptyString
           end)
      +:+ String.concat sep l2.
Proof.
  assert (Hnil : forall s : string, s +:+ EmptyString = s).
  { induction s as [|a s IH]; [done|].
    change (String a s +:+ EmptyString) with (String a (s +:+ EmptyString)).
    by rewrite IH. }
  assert (Hassoc : forall s t u : string, (s +:+ t) +:+ u = s +:+ t +:+ u).
  { induction s as [|a s IH]; intros t u; [done|].
    change (String a (((s +:+ t)) +:+ u) = String a (s +:+ t +:+ u)).
    by rewrite IH. }
  induction l1 as [|x l1 IH]; [by destruct l2|].
  destruct l1 as [|y l1].
  - destruct l2 as [|z l2]; [by rewrite !Hnil|reflexivity].
  - change (String.concat sep ((x :: y :: l1) ++ l2))
      with (x +:+ sep +:+ String.concat sep ((y :: l1) ++ l2)).
    rewrite IH.
    change (String.concat sep (x :: y :: l1))
      with (x +:+ sep +:+ String.concat sep (y :: l1)).
    by rewrite !Hassoc.
Qed.

(** C10, amended. A slug made of path separators only derives the empty
    name, and the builder still succeeds: wherever the slug stands in the
    list, its grading step has the empty string as name, identifier and
    test name; its result-export step is named
    ["Assign file contents to _RESULTS"] and has no identifier; the
    reporter's environment has the key ["_RESULTS"]; and in the [runners]
    value the empty name takes its place between the names before and the
    names after it, so that the separators on its two sides stand next to
    each other. *)
Theorem separator_only_slug (slug : string) (before after : list string)
        (frc : bool) (out : string) (st0 : store) :
  only_separators slug = true ->
  slug_name_of slug = EmptyString /\
  exists (w : value) (st : store) (reporter : value) (runners : string),
    build_workflow {| slugs := before ++ slug :: after; force := frc;
                      outfile := out |} st0 = Ok (w, st) /\
    document_steps (Ok (w, st))
    = Some ([checkout_step; install_step]
              ++ flat_map steps_of_slug before
              ++ [grading_step EmptyString EmptyString; export_step EmptyString]
              ++ flat_map steps_of_slug after
              ++ [reporter]) /\
    field "name" (grading_step EmptyString EmptyString) = Some (VStr EmptyString) /\
    field "id" (grading_step EmptyString EmptyString) = Some (VStr EmptyString) /\
    field2 "with" "test-name" (grading_step EmptyString EmptyString)
    = Some (VStr EmptyString) /\
    field "name" (export_step EmptyString)
    = Some (VStr "Assign file contents to _RESULTS") /\
    field "id" (export_step EmptyString) = None /\
    field2 "env" "_RESULTS" reporter = Some (VStr "${{ env._RESULTS }}") /\
    field2 "with" "runners" reporter = Some (VStr runners) /\
    runners
    = String.concat " " (map slug_name_of before)
        +:+ (match before with [] => EmptyString | _ :: _ => " " end)
        +:+ (match after with [] => EmptyString | _ :: _ => " " end)
        +:+ String.concat " " (map slug_name_of after).
Proof.
  intros Hsep.
  assert (Hclean : slug_clean_of slug = EmptyString)
    by (by apply rstrip_only_separators).
  assert (Hname : slug_name_of slug = EmptyString)
    by (unfold slug_name_of; by rewrite Hclean).
  split; [exact Hname|].
  set (args := {| slugs := before ++ slug :: after; force := frc; outfile := out |}).
  eexists _, _, (reporter_step (map slug_name_of (slugs args))),
    (join " " (map slug_name_of (slugs args))).
  split; [apply build_workflow_spec|].
  assert (Hnames : map slug_name_of (slugs args)
                   = map slug_name_of before ++ EmptyString :: map slug_name_of after).
  { subst args. cbn [slugs]. rewrite map_app. cbn [map]. by rewrite Hname. }
  split; [|repeat split].
  - rewrite <- build_workflow_spec, document_steps_spec.
    subst args. cbn [slugs]. rewrite flat_map_app. cbn [flat_map].
    unfold steps_of_slug at 2. rewrite Hclean, Hname.
    rewrite <- !app_assoc. reflexivity.
  - change (field2 "env" "_RESULTS" (reporter_step (map slug_name_of (slugs args))))
      with (dict_get (env_key EmptyString) (env_map (map slug_name_of (slugs args)))).
    rewrite env_map_lookup; [done|].
    rewrite Hnames. apply in_or_app. right. by left.
  - rewrite Hnames, join_is_concat, concat_app.
    change (String.concat " " (EmptyString :: map slug_name_of after))
      with (match map slug_name_of after with
            | [] => EmptyString
            | _ :: _ => " " +:+ String.concat " " (map slug_name_of after)
            end).
    destruct before as [|b before], after as [|a after]; reflexivity.
Qed.

Lemma separator_only_slug_witness :
  slug_name_of "/" = EmptyString /\
  exists (w : value) (st : list (list value)) (reporter : value)
         (runners : string),
    build_workflow {| slugs := ["b"] ++ "/" :: ["a"]; force := false;
                      outfile := "out.yml" |} [] = Ok (w, st) /\
    document_steps (Ok (w, st))
    = Some ([checkout_step; install_step]
              ++ flat_map steps_of_slug ["b"]
              ++ [grading_step EmptyString EmptyString; export_step EmptyString]
              ++ flat_map steps_of_slug ["a"]
              ++ [reporter]) /\
    field "name" (grading_step EmptyString EmptyString) = Some (VStr EmptyString) /\
    field "id" (grading_step EmptyString EmptyString) = Some (VStr EmptyString) /\
    field2 "with" "test-name" (grading_step EmptyString EmptyString)
    = Some (VStr EmptyString) /\
    field "name" (export_step EmptyString)
    = Some (VStr "Assign file contents to _RESULTS") /\
    field "id" (export_step EmptyString) = None /\
    field2 "env" "_RESULTS" reporter = Some (VStr "${{ env._RESULTS }}") /\
    field2 "with" "runners" reporter = Some (VStr runners) /\
    runners = "b  a".
Proof.
  apply (separator_only_slug "/" ["b"] ["a"] false "out.yml" []). reflexivity.
Defined.

(** With the slugs ["/"] and ["a"] the [runners] value starts with the
    separator: the empty name holds the first position. *)
Example runners_empty_first :
  join " " (map slug_name_of ["/"; "a"]) = " a".
Proof. reflexivity. Qed.

(** *** The result-export command *)

(** C3. At the slug ["example/"] the grading step writes its JSON result
    to [./autograder/example.json], and the command of the result-export
    step that follows base64-encodes [./example.json] into
    [example_RESULTS]: the path it reads is not the one the grading step
    wrote. *)
Theorem export_reads_a_different_path :
  exists (grading export : value),
    document_steps (build_workflow
      {| slugs := ["example/"]; force := false; outfile := "out.yml" |} [])
    = Some [checkout_step; install_step; grading; export;
            reporter_step ["example"]] /\
    field2 "with" "command" grading
    = Some (VStr "check50 example --dev -o json --autograder ./autograder/example.json --feedback ./feedback/example.txt") /\
    field "run" export
    = Some (VStr ("echo " +:+ dq +:+
                  "example_RESULTS=$(base64 -w0 ./example.json)" +:+ dq +:+
                  " >> $GITHUB_ENV")) /\
    occurs_in "--autograder ./autograder/example.json"
              (grading_command "example" "example") = true /\
    occurs_in "base64 -w0 ./example.json" (export_command "example") = true /\
    occurs_in "./autograder/example.json" (export_command "example") = false.
Proof.
  exists (grading_step "example" "example"), (export_step "example").
  rewrite document_steps_spec. repeat split; reflexivity.
Qed.

End BuildFacts.

(* ===================================================================== *)
(** ** The representer pass *)
(* ===================================================================== *)

Module YamlFacts.
Import PyStr Py Workflow Yaml Shape.

(** *** Computations that only allocate *)

Lemma extends_ret {A} (a : A) : extends (mret a).
Proof. intros st a' st' [= <- <-]. exists []. by rewrite app_nil_r. Qed.

Lemma extends_raise {A} (e : exn) : extends (@raise A e).
Proof. intros st a st' H. discriminate H. Qed.

Lemma extends_bind {A B} (m : M A) (k : A -> M B) :
  extends m -> (forall a, extends (k a)) -> extends (m ≫= k).
Proof.
  intros Hm Hk st b st'. unfold mbind, M_bind.
  destruct (m st) as [[a st1]|e] eqn:E; [|discriminate].
  intros H. destruct (Hm _ _ _ E) as [e1 ->].
  destruct (Hk _ _ _ _ H) as [e2 ->]. exists (e1 ++ e2). by rewrite app_assoc.
Qed.

Lemma extends_read_list (a : addr) : extends (read_list a).
Proof.
  intros st items st'. unfold read_list.
  destruct (st !! a); [|discriminate]. intros [= <- <-].
  exists []. by rewrite app_nil_r.
Qed.

Lemma extends_mapM {A B} (f : A -> M B) (l : list A) :
  (forall x, extends (f x)) -> extends (mapM f l).
Proof.
  intros Hf. induction l as [|x l IH]; cbn [mapM].
  - apply extends_ret.
  - apply extends_bind; [apply Hf|]. intros y.
    apply extends_bind; [apply IH|]. intros k. apply extends_ret.
Qed.

Lemma bind_Ok {A B} (m : M A) (k : A -> M B) (st st' : store) (a : A) :
  m st = Ok (a, st') -> (m ≫= k) st = k a st'.
Proof. intros H. unfold mbind, M_bind. by rewrite H. Qed.

Lemma mapM_pure {A B} (f : A -> M B) (g : A -> B) (l : list A) (st : store) :
  (forall x, In x l -> f x st = Ok (g x, st)) ->
  mapM f l st = Ok (map g l, st).
Proof.
  induction l as [|x l IH]; intros Hf; [done|].
  cbn [mapM map].
  rewrite (bind_Ok _ _ st st (g x)) by (apply Hf; by left).
  rewrite (bind_Ok _ _ st st (map g l)); [done|].
  apply IH. intros y Hy. apply Hf. by right.
Qed.

(** *** The loop that fills [new_data] *)

Lemma blank_loop_fresh (items : list value) :
  forall (first : bool) (st : store) (acc : list value),
    blank_loop (VList (length st)) items first (st ++ [acc])
    = Ok (tt, st ++ [acc ++ with_blanks first items]).
Proof.
  assert (Happ : forall (st : store) (acc : list value) (x : value),
             list_append (VList (length st)) x (st ++ [acc])
             = Ok (tt, st ++ [acc ++ [x]])).
  { intros st acc x. unfold list_append.
    rewrite lookup_app_r by lia. rewrite Nat.sub_diag. cbn [lookup list_lookup].
    replace (length st) with (length st + 0)%nat at 1 by lia.
    by rewrite insert_app_r. }
  induction items as [|item rest IH]; intros first st acc.
  - cbn. by rewrite app_nil_r.
  - cbn [blank_loop with_blanks]. unfold mbind, M_bind.
    destruct first; cbn [negb].
    + cbn [mret M_ret]. rewrite Happ, IH. cbn [app].
      by rewrite <- app_assoc.
    + rewrite !Happ, IH. cbn [app]. by rewrite <- !app_assoc.
Qed.

Lemma with_blanks_false (items : list value) :
  with_blanks false items = flat_map (fun x => [VBlankLine; x]) items.
Proof. induction items as [|x l IH]; [done|]. cbn. by rewrite IH. Qed.

(** The new list is the old one with a marker before every entry but the
    first. *)
Lemma with_blanks_true (x : value) (items : list value) :
  with_blanks true (x :: items) = x :: flat_map (fun y => [VBlankLine; y]) items.
Proof. cbn. by rewrite with_blanks_false. Qed.

(** *** One step of [call] *)

Lemma call_list_unfold (fuel : nat) (self : dumper) (a : addr) :
  call (S fuel) F_represent_list self (VList a)
  = (items ← read_list a;
     nodes ← mapM (represent_data fuel self) items;
     mret (SequenceNode tag_seq nodes)).
Proof. reflexivity. Qed.

Lemma call_tuple_unfold (fuel : nat) (self : dumper) (items : list value) :
  call (S fuel) F_represent_tuple self (VTuple items)
  = (nodes ← mapM (represent_data fuel self) items;
     mret (SequenceNode tag_tuple nodes)).
Proof. reflexivity. Qed.

Lemma call_dict_unfold (fuel : nat) (self : dumper)
      (items : list (string * value)) :
  call (S fuel) F_represent_dict self (VDict items)
  = (pairs ← mapM (fun kv =>
                     node_key ← represent_data fuel self (VStr (fst kv));
                     node_value ← represent_data fuel self (snd kv);
                     mret (node_key, node_value)) items;
     mret (MappingNode tag_map pairs)).
Proof. reflexivity. Qed.

Lemma call_hook_unfold (fuel : nat) (self : dumper) (data : value) :
  call (S fuel) F_represent_list_with_extra_blank_lines self data
  = represent_list_with_extra_blank_lines (call fuel) self data.
Proof. reflexivity. Qed.

(** *** The registry after the module has been loaded *)

Lemma registry_after_load :
  yaml_representers BlankLineStepsDumper TStr = F_str_presenter /\
  yaml_representers BlankLineStepsDumper TBlankLine = F_blank_line_presenter /\
  yaml_representers BlankLineStepsDumper TDict = F_represent_dict /\
  yaml_representers BlankLineStepsDumper TTuple = F_represent_tuple /\
  yaml_representers BlankLineStepsDumper TList = F_represent_list /\
  represent_list BlankLineStepsDumper = F_represent_list_with_extra_blank_lines /\
  original_list_representer = F_represent_list.
Proof. repeat split. Qed.

(** Values without list objects are represented by [node_of], whatever
    the store, and the store is left as it is. *)
Lemma represent_flat (d : nat) :
  forall (v : value) (fuel : nat) (self : dumper) (st : store),
    cls self = BlankLineStepsDumper ->
    flat d v = true -> (d <= fuel)%nat ->
    represent_data fuel self v st = Ok (node_of v, st).
Proof.
  induction d as [|d IH]; intros v fuel self st Hcls Hflat Hle; [done|].
  destruct fuel as [|fuel]; [lia|]. assert (Hle' : (d <= fuel)%nat) by lia.
  unfold represent_data. rewrite Hcls.
  destruct v as [s|items|a|items|]; cbn [type_of flat] in *; try done.
  - change (yaml_representers BlankLineStepsDumper TDict) with F_represent_dict.
    rewrite call_dict_unfold.
    erewrite bind_Ok; [reflexivity|].
    apply (mapM_pure _ (fun kv => (str_presenter (fst kv), node_of (snd kv)))).
    intros kv Hin.
    assert (Hkv : flat d (snd kv) = true).
    { rewrite forallb_forall in Hflat. by apply Hflat. }
    assert (Hkey : flat d (VStr (fst kv)) = true).
    { destruct d; [done|reflexivity]. }
    erewrite bind_Ok; [|by apply IH].
    erewrite bind_Ok; [|by apply IH]. reflexivity.
  - change (yaml_representers BlankLineStepsDumper TTuple) with F_represent_tuple.
    rewrite call_tuple_unfold.
    erewrite bind_Ok; [reflexivity|].
    apply (mapM_pure _ node_of). intros x Hin. apply IH; [done| |done].
    rewrite forallb_forall in Hflat. by apply Hflat.
Qed.

(** Whatever function is applied, to whatever data and dumper: the lists
    that exist before the call are the same after it. *)
Lemma call_extends (fuel : nat) :
  forall (f : func) (self : dumper) (data : value),
    extends (call fuel f self data).
Proof.
  induction fuel as [|fuel IH]; intros f self data.
  { apply extends_raise. }
  assert (Hrep : forall d, extends (represent_data fuel self d)).
  { intros d. apply IH. }
  destruct f.
  - destruct data; first [apply extends_ret | apply extends_raise].
  - destruct data; try apply extends_raise. rewrite call_list_unfold.
    apply extends_bind; [apply extends_read_list|]. intros items.
    apply extends_bind; [by apply extends_mapM|]. intros. apply extends_ret.
  - destruct data; try apply extends_raise. rewrite call_dict_unfold.
    apply extends_bind; [|intros; apply extends_ret].
    apply extends_mapM. intros kv.
    apply extends_bind; [apply Hrep|]. intros.
    apply extends_bind; [apply Hrep|]. intros. apply extends_ret.
  - destruct data; try apply extends_raise. rewrite call_tuple_unfold.
    apply extends_bind; [by apply extends_mapM|]. intros. apply extends_ret.
  - apply extends_ret.
  - destruct data; first [apply extends_ret | apply extends_raise].
  - apply extends_ret.
  - rewrite call_hook_unfold. unfold represent_list_with_extra_blank_lines.
    destruct (recursive_objects self) as [objs|]; [|apply extends_raise].
    destruct (existsb (names_steps data) objs); [|apply IH].
    destruct data as [|?|a|?|]; try apply extends_raise.
    apply extends_bind; [apply extends_read_list|]. intros items.
    destruct (1 <? Z.of_nat (length items)); [|apply IH].
    intros st n st' H.
    rewrite (bind_Ok _ _ st (st ++ [[]]) (VList (length st))) in H by done.
    rewrite (bind_Ok _ _ _ _ tt (blank_loop_fresh items true st [])) in H.
    destruct (IH _ _ _ _ _ _ H) as [ext ->].
    eexists. by rewrite <- app_assoc.
Qed.

(** *** The built document *)

Lemma steps_are_flat (slugs : list string) :
  Forall (fun v => flat 3 v = true)
         ([checkout_step; install_step] ++ flat_map steps_of_slug slugs
            ++ [reporter_step (map slug_name_of slugs)]).
Proof.
  apply Forall_app. split; [by repeat constructor|].
  apply Forall_app. split.
  - induction slugs as [|s l IH]; [constructor|].
    cbn [flat_map]. apply Forall_app. split; [by repeat constructor|exact IH].
  - constructor; [|constructor].
    cbn. rewrite BuildFacts.env_map_distinct.
    rewrite !andb_true_r.
    induction (distinct (map slug_name_of slugs)) as [|x l IH]; [done|exact IH].
Qed.

Lemma steps_are_dicts (slugs : list string) :
  Forall (fun v => type_of v = TDict)
         ([checkout_step; install_step] ++ flat_map steps_of_slug slugs
            ++ [reporter_step (map slug_name_of slugs)]).
Proof.
  apply Forall_app. split; [by repeat constructor|].
  apply Forall_app. split; [|by repeat constructor].
  induction slugs as [|s l IH]; [constructor|].
  cbn [flat_map]. apply Forall_app. split; [by repeat constructor|exact IH].
Qed.

Lemma mapM_Forall2 {A B} (f : A -> M B) (l : list A) (rs : list B) (st : store) :
  Forall2 (fun x r => f x st = Ok (r, st)) l rs ->
  mapM f l st = Ok (rs, st).
Proof.
  induction 1 as [|x r l rs Hx _ IH]; [done|].
  cbn [mapM]. rewrite (bind_Ok _ _ st st r) by done.
  by rewrite (bind_Ok _ _ st st rs).
Qed.

(** A dict whose values are represented without touching the store. *)
Lemma represent_dict_items (fuel : nat) (self : dumper)
      (items : list (string * value)) (ns : list node) (st : store) :
  cls self = BlankLineStepsDumper ->
  Forall2 (fun kv n => represent_data (S fuel) self (snd kv) st = Ok (n, st))
          items ns ->
  represent_data (S (S fuel)) self (VDict items) st
  = Ok (MappingNode tag_map
          (zip_with (fun kv n => (str_presenter (fst kv), n)) items ns), st).
Proof.
  intros Hcls Hitems. unfold represent_data at 1. rewrite Hcls.
  change (yaml_representers BlankLineStepsDumper (type_of (VDict items)))
    with F_represent_dict.
  rewrite call_dict_unfold.
  erewrite bind_Ok; [reflexivity|].
  apply mapM_Forall2. clear -Hcls Hitems.
  induction Hitems as [|kv n items ns Hkv _ IH]; cbn [zip_with]; constructor.
  - erewrite bind_Ok; [|by apply (represent_flat 1%nat); [| |lia]].
    erewrite bind_Ok; [|exact Hkv]. reflexivity.
  - exact IH.
Qed.

(** With the registry of [BlankLineStepsDumper], a document whose step
    list holds values without list objects is represented as
    [document_node]: the sequence of the steps has one node per step. *)
Lemma represent_document (a : addr) (steps : list value) (st : store)
      (self : dumper) (fuel : nat) :
  cls self = BlankLineStepsDumper ->
  st !! a = Some steps ->
  Forall (fun v => flat 3 v = true) steps ->
  (7 <= fuel)%nat ->
  represent_data fuel self (workflow_literal (VList a)) st
  = Ok (document_node (map node_of steps), st).
Proof.
  intros Hcls Hst Hflat Hfuel.
  do 7 (destruct fuel as [|fuel]; [lia|]). clear Hfuel.
  assert (Hsteps : represent_data (S (S (S (S fuel)))) self (VList a) st
                   = Ok (SequenceNode tag_seq (map node_of steps), st)).
  { unfold represent_data. rewrite Hcls.
    change (yaml_representers BlankLineStepsDumper (type_of (VList a)))
      with F_represent_list.
    rewrite call_list_unfold.
    erewrite bind_Ok; [|unfold read_list; by rewrite Hst].
    erewrite bind_Ok; [reflexivity|].
    apply mapM_pure. intros v Hin. apply (represent_flat 3%nat); [done| |lia].
    rewrite Forall_forall in Hflat. apply Hflat. by apply list_elem_of_In. }
  assert (Hflat' : forall (d n : nat) (v : value),
             flat d v = true -> (d <= n)%nat ->
             represent_data n self v st = Ok (node_of v, st)).
  { intros d n v Hv Hle. by apply (represent_flat d). }
  unfold workflow_literal.
  rewrite (represent_dict_items _ _ _
    [plain "Autograding Tests";
     node_of (VDict [("push", VDict []); ("repository_dispatch", VDict [])]);
     node_of (VDict [("checks", VStr "write"); ("actions", VStr "read");
                     ("contents", VStr "read")]);
     MappingNode tag_map
        [(plain "run-autograding-tests", MappingNode tag_map
            [(plain "container", MappingNode tag_map
                [(plain "image", plain "python:3.12-slim")]);
             (plain "runs-on", plain "ubuntu-latest");
             (plain "steps", SequenceNode tag_seq (map node_of steps))])]]);
    [reflexivity|done|].
  constructor; [by apply (Hflat' 1%nat); [|lia]|].
  constructor; [by apply (Hflat' 3%nat); [|lia]|].
  constructor; [by apply (Hflat' 2%nat); [|lia]|].
  constructor; [|constructor]. cbn [snd].
  rewrite (represent_dict_items _ _ _
    [MappingNode tag_map
            [(plain "container", MappingNode tag_map
                [(plain "image", plain "python:3.12-slim")]);
             (plain "runs-on", plain "ubuntu-latest");
             (plain "steps", SequenceNode tag_seq (map node_of steps))]]);
    [reflexivity|done|].
  constructor; [|constructor]. cbn [snd].
  rewrite (represent_dict_items _ _ _
    [node_of (VDict [("image", VStr "python:3.12-slim")]);
     plain "ubuntu-latest";
     SequenceNode tag_seq (map node_of steps)]);
    [reflexivity|done|].
  constructor; [by apply (Hflat' 2%nat); [|lia]|].
  constructor; [by apply (Hflat' 1%nat); [|lia]|].
  constructor; [exact Hsteps|constructor].
Qed.

Lemma node_of_dict_not_blank (v : value) :
  type_of v = TDict -> is_blank_node (node_of v) = false.
Proof. by destruct v. Qed.

(** The dump of a built document, for every request: the builder
    succeeds, the representer succeeds without touching the store, and the
    sequence of the steps holds the nodes of the steps and nothing else. *)
Lemma represent_built_document (args : Namespace) (st0 : store) (fuel : nat) :
  (7 <= fuel)%nat ->
  exists (w : value) (st : store) (steps : list value),
    build_workflow args st0 = Ok (w, st) /\
    document_steps (Ok (w, st)) = Some steps /\
    represent fuel BlankLineStepsDumper w st
    = Ok (document_node (map node_of steps), st) /\
    Forall (fun n => is_blank_node n = false) (map node_of steps).
Proof.
  intros Hfuel. eexists _, _, _.
  split; [apply BuildFacts.build_workflow_spec|].
  split; [rewrite <- BuildFacts.build_workflow_spec;
          apply BuildFacts.document_steps_spec|].
  split.
  - apply represent_document; [done| |apply steps_are_flat|done].
    rewrite lookup_app_r by lia. by rewrite Nat.sub_diag.
  - apply Forall_map. eapply Forall_impl; [apply steps_are_dicts|].
    intros v. apply node_of_dict_not_blank.
Qed.

(** *** The augmented list representer, had it been called *)

Lemma hook_without_attribute (fuel : nat) (c : dumper_class) (data : value)
      (st : store) :
  call (S fuel) F_represent_list_with_extra_blank_lines (new_dumper c) data st
  = Raise AttributeError.
Proof. reflexivity. Qed.

Lemma with_blanks_flat (d : nat) (items : list value) (first : bool) :
  Forall (fun v => flat (S d) v = true) items ->
  Forall (fun v => flat (S d) v = true) (with_blanks first items).
Proof.
  intros H. revert first. induction H as [|x l Hx _ IH]; intros first.
  - constructor.
  - cbn [with_blanks]. apply Forall_app. split.
    + destruct first; by repeat constructor.
    + constructor; [done|apply IH].
Qed.

(** On a dumper that does carry a [recursive_objects] naming [data] as a
    ['steps'] list, the function builds a new list object with the markers
    and represents that one. *)
Lemma hook_detected (fuel : nat) (self : dumper) (objs : list value)
      (a : addr) (items : list value) (st : store) :
  cls self = BlankLineStepsDumper ->
  recursive_objects self = Some objs ->
  existsb (names_steps (VList a)) objs = true ->
  st !! a = Some items ->
  (1 < length items)%nat ->
  Forall (fun v => flat 3 v = true) items ->
  call (5 + fuel) F_represent_list_with_extra_blank_lines self (VList a) st
  = Ok (SequenceNode tag_seq (map node_of (with_blanks true items)),
        st ++ [with_blanks true items]).
Proof.
  intros Hcls Hobjs Hdet Hst Hlen Hflat.
  change (5 + fuel)%nat with (S (S (3 + fuel))).
  rewrite call_hook_unfold. unfold represent_list_with_extra_blank_lines.
  rewrite Hobjs, Hdet.
  erewrite bind_Ok; [|unfold read_list; by rewrite Hst].
  replace (1 <? Z.of_nat (length items)) with true
    by (symmetry; apply Z.ltb_lt; lia).
  rewrite (bind_Ok _ _ st (st ++ [[]]) (VList (length st))) by done.
  rewrite (bind_Ok _ _ _ _ tt (blank_loop_fresh items true st [])).
  cbn [app].
  change original_list_representer with F_represent_list.
  rewrite call_list_unfold.
  erewrite bind_Ok.
  2:{ unfold read_list. rewrite lookup_app_r by lia.
      by rewrite Nat.sub_diag. }
  erewrite bind_Ok; [reflexivity|].
  apply mapM_pure. intros v Hin. apply (represent_flat 3%nat); [done| |lia].
  pose proof (with_blanks_flat 2 items true Hflat) as Hwb.
  rewrite Forall_forall in Hwb. apply Hwb. by apply list_elem_of_In.
Qed.

Example hook_on_three_items :
  call 3 F_represent_list_with_extra_blank_lines
       {| cls := BlankLineStepsDumper;
          recursive_objects :=
            Some [VTuple [VDict [("steps", VList 0%nat)]; VStr "x"]] |}
       (VList 0%nat) [[VStr "a"; VStr "b"; VStr "c"]]
  = Ok (SequenceNode tag_seq [plain "a"; blank_node; plain "b"; blank_node; plain "c"],
        [[VStr "a"; VStr "b"; VStr "c"];
         [VStr "a"; VBlankLine; VStr "b"; VBlankLine; VStr "c"]]).
Proof. reflexivity. Qed.

(** *** The claims on the serializer *)

(** C2. At the slugs ["example/"] the document has five steps.  The
    registry that [represent_data] dispatches lists on still holds
    PyYAML's own list representer (the augmented function was bound to the
    attribute [represent_list], which the dispatch does not read), so the
    node graph handed to the emitter has a steps sequence of five
    mappings and no blank-line scalar in any sequence; called directly on
    the dumper, the function would raise for want of
    [recursive_objects]. *)
Theorem steps_rendered_without_blank_lines :
  exists (w : value) (st : list (list value)) (doc : node),
    build_workflow {| slugs := ["example/"]; force := false;
                      outfile := "out.yml" |} [] = Ok (w, st) /\
    represent 7 BlankLineStepsDumper w st = Ok (doc, st) /\
    doc = document_node
            (map node_of [checkout_step; install_step;
                          grading_step "example" "example";
                          export_step "example";
                          reporter_step ["example"]]) /\
    ((node_get "jobs" doc ≫= node_get "run-autograding-tests")
       ≫= node_get "steps")
    = Some (SequenceNode tag_seq
              [node_of checkout_step; node_of install_step;
               node_of (grading_step "example" "example");
               node_of (export_step "example");
               node_of (reporter_step ["example"])]) /\
    forallb (fun items => forallb (fun n => negb (is_blank_node n)) items)
            (sequences doc) = true /\
    yaml_representers BlankLineStepsDumper TList = F_represent_list /\
    represent_list BlankLineStepsDumper
    = F_represent_list_with_extra_blank_lines /\
    call 7 F_represent_list_with_extra_blank_lines
         (new_dumper BlankLineStepsDumper) (VList 0%nat) st
    = Raise AttributeError.
Proof.
  eexists _, _, _. split; [vm_compute; reflexivity|].
  split; [vm_compute; reflexivity|]. repeat split.
Qed.

(** C8. For every request the step list of the built document holds no
    [BlankLine] marker, and serialization leaves it so: whatever
    representer runs on the store, the list object of the steps is the
    same afterwards, and the augmented list representer, where it does
    insert markers, puts them in a new list object next to it. *)
Theorem logical_steps_never_hold_markers (args : Namespace)
        (st0 : list (list value)) :
  exists (w : value) (st : list (list value)) (a : nat) (steps : list value),
    build_workflow args st0 = Ok (w, st) /\
    job_steps w st = Ok (VList a, st) /\
    st !! a = Some steps /\
    Forall (fun v => v <> VBlankLine) steps /\
    (forall (fuel : nat) (f : func) (self : dumper) (data : value),
        match call fuel f self data st with
        | Ok (_, st') => st' !! a = Some steps
        | Raise _ => True
        end) /\
    (forall (fuel : nat) (other : value),
        call (5 + fuel) F_represent_list_with_extra_blank_lines
             {| cls := BlankLineStepsDumper;
                recursive_objects :=
                  Some [VTuple [VDict [("steps", VList a)]; other]] |}
             (VList a) st
        = Ok (SequenceNode tag_seq (map node_of (with_blanks true steps)),
              st ++ [with_blanks true steps])).
Proof.
  eexists _, _, (length st0), _.
  split; [apply BuildFacts.build_workflow_spec|].
  split; [reflexivity|].
  assert (Hat : forall (l : list value), (st0 ++ [l]) !! length st0 = Some l).
  { intros l. rewrite lookup_app_r by lia. by rewrite Nat.sub_diag. }
  split; [apply Hat|]. split; [|split].
  - eapply Forall_impl; [apply steps_are_dicts|]. by intros [].
  - intros fuel f self data.
    destruct (call fuel f self data _) as [[n st']|e] eqn:E; [|done].
    destruct (call_extends _ _ _ _ _ _ _ E) as [ext ->].
    rewrite lookup_app_l; [apply Hat|]. rewrite length_app. cbn. lia.
  - intros fuel other. eapply hook_detected; try done.
    + cbn. by rewrite Nat.eqb_refl.
    + rewrite !length_app. cbn. lia.
    + apply steps_are_flat.
Qed.

End YamlFacts.

(* ===================================================================== *)
(** ** The style strings are written in *)
(* ===================================================================== *)

Module EmitterFacts.
Import PyStr Py Workflow Yaml Shape.






(** Both scripts of the scaffold are written as literal blocks. *)
Example fixed_scripts_are_written_literal :
  (field "run" install_step
     ≫= fun v => match v with
                 | VStr s => Some (Emitter.choose_scalar_style false 0 false true
                                     (Some Literal) (Emitter.analyze_scalar s))
                 | _ => None
                 end) = Some (Emitter.Written Literal).
Proof. reflexivity. Qed.

End EmitterFacts.

(* ===================================================================== *)
(** ** The entry point *)
(* ===================================================================== *)

Module MainFacts.
Import Py Workflow Yaml Shape Main Disk.

(** C4, as stated: whenever force is set or the path does not exist, the
    document is built and written to the path.  It fails where the path
    cannot be opened: on a disk with no directory [nodir], the output path
    [nodir/out.yml] does not exist, and [main] ends with the
    [FileNotFoundError] of [open] after building the document, having
    written nothing. *)
Lemma written_whenever_the_guard_is_passed_fails :
  ~ (forall (O : system) (emit : node -> string) (fuel : nat)
            (args : Namespace) (w : world O),
        (7 <= fuel)%nat ->
        force args = true \/ os_path_exists O w (outfile args) = false ->
        exists (workflow : value) (text : string),
          trace (main O emit fuel args w)
          = [Built workflow; Opened (outfile args);
             Dumped (outfile args) text]).
Proof.
  intros H.
  destruct (H disk_system (fun _ => "yaml") 7%nat
              {| slugs := ["example/"]; force := false;
                 outfile := "nodir/out.yml" |}
              {| dirs := ∅; files := ∅ |})
    as (workflow & text & Htrace); [lia|by right|].
  vm_compute in Htrace. discriminate Htrace.
Qed.

(** C4, amended. If the output path exists and the force flag is not set,
    [main] exits with status 1 having built, opened and written nothing,
    and the world is as before.  If force is set or the path does not
    exist, the document is built and represented and the path is opened
    for writing: when [open] raises, [main] ends with that error uncaught,
    nothing is written and the world is as before; when it succeeds, the
    rendered document is written through the opened file, which is then
    closed, and the process ends with status 0, or with the error of the
    write. *)
Theorem overwrite_guard (O : system) (emit : node -> string) (fuel : nat)
        (args : Namespace) (w : world O) :
  (7 <= fuel)%nat ->
  (os_path_exists O w (outfile args) = true -> force args = false ->
     main O emit fuel args w
     = {| exit_status := Exit 1; final := w; trace := [] |}) /\
  (force args = true \/ os_path_exists O w (outfile args) = false ->
     exists (workflow : value) (st : list (list value)) (doc : node),
       build_workflow args [] = Ok (workflow, st) /\
       represent fuel BlankLineStepsDumper workflow st = Ok (doc, st) /\
       match os_open_w O w (outfile args) with
       | inl err =>
           main O emit fuel args w
           = {| exit_status := UncaughtOS err; final := w;
                trace := [Built workflow] |}
       | inr (f, opened) =>
           main O emit fuel args w
           = {| exit_status :=
                  match snd (os_write O opened f (emit doc)) with
                  | None => Exit 0
                  | Some err => UncaughtOS err
                  end;
                final := os_close O (fst (os_write O opened f (emit doc))) f;
                trace := [Built workflow; Opened (outfile args);
                          Dumped (outfile args) (emit doc)] |}
       end).
Proof.
  intros Hfuel. split.
  - intros Hex Hforce. unfold main. by rewrite Hex, Hforce.
  - intros Hgo.
    destruct (YamlFacts.represent_built_document args [] fuel Hfuel)
      as (workflow & st & steps & Hbuild & _ & Hrep & _).
    exists workflow, st, (document_node (map node_of steps)).
    split; [exact Hbuild|]. split; [exact Hrep|].
    unfold main.
    replace (os_path_exists O w (outfile args) && negb (force args)) with false.
    2:{ destruct Hgo as [-> | ->]; [by rewrite andb_false_r|done]. }
    rewrite Hbuild.
    destruct (os_open_w O w (outfile args)) as [err|[f opened]]; [done|].
    by rewrite Hrep.
Qed.

Lemma overwrite_guard_witness :
  (main disk_system (fun _ => "yaml") 7
        {| slugs := ["example/"]; force := false; outfile := "out.yml" |}
        {| dirs := ∅; files := {[ "out.yml" := "old" ]} |}
   = {| exit_status := Exit 1;
        final := {| dirs := ∅; files := {[ "out.yml" := "old" ]} |};
        trace := [] |}) /\
  (exists (workflow : value) (st : list (list value)) (doc : node),
      build_workflow
        {| slugs := ["example/"]; force := true; outfile := "out.yml" |} []
      = Ok (workflow, st) /\
      represent 7 BlankLineStepsDumper workflow st = Ok (doc, st) /\
      main disk_system (fun _ => "yaml") 7
           {| slugs := ["example/"]; force := true; outfile := "out.yml" |}
           {| dirs := ∅; files := {[ "out.yml" := "old" ]} |}
      = {| exit_status := Exit 0;
           final := {| dirs := ∅;
                       files := <["out.yml" := "yaml"]>
                                  (<["out.yml" := EmptyString]>
                                     {[ "out.yml" := "old" ]}) |};
           trace := [Built workflow; Opened "out.yml";
                     Dumped "out.yml" "yaml"] |}).
Proof.
  split.
  - apply (proj1 (overwrite_guard disk_system (fun _ => "yaml") 7
      {| slugs := ["example/"]; force := false; outfile := "out.yml" |}
      {| dirs := ∅; files := {[ "out.yml" := "old" ]} |} ltac:(lia)));
      reflexivity.
  - apply (proj2 (overwrite_guard disk_system (fun _ => "yaml") 7
      {| slugs := ["example/"]; force := true; outfile := "out.yml" |}
      {| dirs := ∅; files := {[ "out.yml" := "old" ]} |} ltac:(lia))).
    left. reflexivity.
Defined.

(** On the disk of the witness the forced run leaves the new text at the
    output path. *)
Example forced_run_replaces_the_file :
  files (final (main disk_system (fun _ => "yaml") 7
           {| slugs := ["example/"]; force := true; outfile := "out.yml" |}
           {| dirs := ∅; files := {[ "out.yml" := "old" ]} |})) !! "out.yml"
  = Some "yaml".
Proof. vm_compute. reflexivity. Qed.

End MainFacts.

(* ===================================================================== *)
(** ** More on name derivation *)
(* ===================================================================== *)

Module NameMore.
Import PyStr Terms.

Lemma rstrip_cons (c a : ascii) (s : string) :
  rstrip c (String a s)
  = match rstrip c s with
    | EmptyString => if Ascii.eqb a c then EmptyString else String a EmptyString
    | r => String a r
    end.
Proof. reflexivity. Qed.

Lemma app_cons (a : ascii) (s t : string) :
  String a s +:+ t = String a (s +:+ t).
Proof. reflexivity. Qed.

Lemma app_empty_l (t : string) : EmptyString +:+ t = t.
Proof. reflexivity. Qed.

(** [rstrip] removes a run of the character at the end and nothing else,
    and what it returns does not end with the character. *)
Lemma rstrip_decompose (c : ascii) (s : string) :
  exists k : nat,
    s = rstrip c s +:+ copies k c /\ last_char (rstrip c s) <> Some c.
Proof.
  induction s as [|a s (k & Hs & Hlast)].
  - exists 0%nat. split; [reflexivity|discriminate].
  - rewrite rstrip_cons. destruct (rstrip c s) as [|b r] eqn:Hr.
    + rewrite app_empty_l in Hs. destruct (Ascii.eqb a c) eqn:Hac.
      * apply Ascii.eqb_eq in Hac as ->. exists (S k).
        split; [by rewrite Hs at 1|discriminate].
      * exists k. split; [by rewrite app_cons, app_empty_l, <- Hs|].
        cbn. intros [= ->]. by rewrite Ascii.eqb_refl in Hac.
    + exists k. split; [by rewrite app_cons, <- Hs|exact Hlast].
Qed.

(** Cleaning a slug removes a run of separators at its end and nothing
    else, and the cleaned slug does not end with a separator. *)
Theorem slug_clean_decomposition (slug_path : string) :
  exists k : nat,
    slug_path = slug_clean_of slug_path +:+ copies k "/" /\
    last_char (slug_clean_of slug_path) <> Some "/"%char.
Proof. apply rstrip_decompose. Qed.

(** *** Fields of a split *)

Lemma split_nonempty (c : ascii) (s : string) : split c s <> [].
Proof.
  induction s as [|a s IH]; [done|]. cbn [split].
  destruct (Ascii.eqb a c); [done|]. by destruct (split c s).
Qed.

Lemma split_fields_without (c : ascii) (s : string) :
  Forall (fun w => contains c w = false) (split c s).
Proof.
  induction s as [|a s IH]; [by repeat constructor|]. cbn [split].
  destruct (Ascii.eqb a c) eqn:Hac; [by constructor|].
  destruct (split c s) as [|w ws]; [by repeat constructor; cbn; rewrite Hac|].
  inversion IH as [|? ? Hw Hws]; subst. constructor; [|done].
  cbn. by rewrite Hac, Hw.
Qed.

Lemma substring_without (c : ascii) (s : string) :
  contains c s = false ->
  forall n : nat, contains c (String.substring 0 n s) = false.
Proof.
  induction s as [|a s IH]; intros H n; [by destruct n|].
  cbn in H. apply orb_false_iff in H as [Ha Hs].
  destruct n; [done|]. cbn. by rewrite Ha, IH.
Qed.

Lemma last_Forall {A} (P : A -> Prop) (l : list A) (d : A) :
  Forall P l -> P d -> P (List.last l d).
Proof.
  intros Hl Hd. induction Hl as [|x l Hx Hl IH]; [done|].
  destruct l; [done|]. exact IH.
Qed.

Lemma name_without_separator (p : string) :
  contains "/" (PyPath.name p) = false.
Proof.
  unfold PyPath.name, PyPath.tail_parts.
  apply (last_Forall (fun w => contains "/" w = false)); [|done].
  apply List.Forall_forall. intros w [Hw _]%filter_In.
  pose proof (split_fields_without "/" p) as H.
  rewrite List.Forall_forall in H. by apply H.
Qed.

(** The derived name never contains a path separator, whatever the slug. *)
Theorem derived_name_has_no_separator (slug_path : string) :
  contains "/" (slug_name_of slug_path) = false.
Proof.
  unfold slug_name_of, PyPath.stem.
  destruct (_ && _); [|apply name_without_separator].
  apply substring_without, name_without_separator.
Qed.

(** *** The stem and the suffix *)

Lemma rfind_spec (c : ascii) (s : string) :
  (rfind c s = -1 /\ contains c s = false) \/
  (exists pre post : string,
      s = pre +:+ String c post /\
      rfind c s = Z.of_nat (String.length pre) /\
      contains c post = false).
Proof.
  induction s as [|a s IH]; [by left|]. cbn [rfind contains].
  destruct IH as [[Hr Hc]|(pre & post & Hs & Hr & Hpost)].
  - rewrite Hr, Hc. cbn [Z.leb Z.compare orb].
    destruct (Ascii.eqb a c) eqn:Hac.
    + apply Ascii.eqb_eq in Hac as ->. right.
      exists EmptyString, s. done.
    + by left.
  - right. exists (String a pre), post. rewrite Hr.
    replace (0 <=? Z.of_nat (String.length pre)) with true
      by (symmetry; apply Z.leb_le; lia).
    split; [by rewrite Hs|]. split; [cbn [String.length]; lia|done].
Qed.

Lemma substring_prefix_app (pre t : string) :
  String.substring 0 (String.length pre) (pre +:+ t) = pre.
Proof.
  induction pre as [|a pre IH]; [by destruct t|].
  rewrite app_cons. cbn. by rewrite IH.
Qed.

(** [stem] and what it leaves out make up the name: the part left out is
    empty, or a dot followed by at least one character and no further dot;
    and a name that is not empty has a stem that is not empty. *)
Theorem stem_and_suffix (p : string) :
  exists suffix : string,
    PyPath.name p = PyPath.stem p +:+ suffix /\
    (suffix = EmptyString \/
     exists r : string,
       suffix = String "." r /\ r <> EmptyString /\ contains "." r = false) /\
    (PyPath.stem p = EmptyString -> PyPath.name p = EmptyString).
Proof.
  unfold PyPath.stem. generalize (PyPath.name p) as n. intros n.
  assert (Hnil : forall s : string, s +:+ EmptyString = s).
  { induction s as [|a s IH]; [done|]. by rewrite app_cons, IH. }
  destruct (rfind_spec "." n) as [[Hr _]|(pre & post & -> & Hr & Hpost)].
  - rewrite Hr. cbn [Z.ltb Z.compare andb]. exists EmptyString.
    split; [by rewrite Hnil|]. split; [by left|done].
  - rewrite Hr. unfold len.
    rewrite BuildFacts.string_length_app. cbn [String.length].
    destruct pre as [|a pre].
    + cbn [String.length Z.of_nat Z.ltb Z.compare andb]. exists EmptyString.
      split; [by rewrite Hnil|]. split; [by left|done].
    + destruct post as [|b post].
      * replace (_ && _) with false.
        2:{ symmetry. apply andb_false_iff. right. apply Z.ltb_ge.
            cbn [String.length]. lia. }
        exists EmptyString. split; [by rewrite Hnil|]. split; [by left|done].
      * replace (_ && _) with true.
        2:{ symmetry. apply andb_true_iff. split; apply Z.ltb_lt;
            cbn [String.length]; lia. }
        unfold slice_to. rewrite Nat2Z.id.
        rewrite substring_prefix_app.
        exists (String "." (String b post)). split; [reflexivity|].
        split; [right; by eexists|done].
Qed.

(** *** Leading directories *)

Lemma split_app_sep (c : ascii) (x y : string) :
  split c (x +:+ String c y) = split c x ++ split c y.
Proof.
  induction x as [|a x IH].
  - rewrite app_empty_l. cbn [split]. by rewrite Ascii.eqb_refl.
  - rewrite app_cons. cbn [split]. rewrite IH.
    destruct (Ascii.eqb a c); [done|].
    pose proof (split_nonempty c x). by destruct (split c x).
Qed.

Lemma rstrip_app_kept (c : ascii) (x y : string) :
  rstrip c y <> EmptyString -> rstrip c (x +:+ y) = x +:+ rstrip c y.
Proof.
  intros Hy. induction x as [|a x IH]; [done|].
  rewrite !app_cons, rstrip_cons, IH.
  destruct (x +:+ rstrip c y) as [|b r] eqn:E; [|done].
  destruct x; [|done]. by rewrite app_empty_l in E.
Qed.

Lemma last_app_nonempty {A} (l1 l2 : list A) (d : A) :
  l2 <> [] -> List.last (l1 ++ l2) d = List.last l2 d.
Proof.
  intros H. induction l1 as [|x l1 IH]; [done|].
  cbn [app]. destruct (l1 ++ l2) eqn:E; [|by rewrite <- IH].
  apply app_eq_nil in E as [_ ->]. done.
Qed.

(** A slug that has a final component keeps its derived name when
    directories are put in front of it. *)
Theorem name_ignores_leading_directories (dir slug_path : string) :
  PyPath.tail_parts (slug_clean_of slug_path) <> [] ->
  slug_name_of (dir +:+ "/" +:+ slug_path) = slug_name_of slug_path.
Proof.
  intros Hparts. unfold slug_name_of, slug_clean_of in *.
  destruct (rstrip "/" slug_path) as [|b r] eqn:Hr; [done|].
  assert (Hclean : rstrip "/" (dir +:+ "/" +:+ slug_path)
                   = dir +:+ String "/" (String b r)).
  { change ("/" +:+ slug_path) with (String "/" slug_path).
    rewrite rstrip_app_kept; rewrite rstrip_cons, Hr; done. }
  rewrite Hclean. unfold PyPath.stem, PyPath.name, PyPath.tail_parts in *.
  rewrite split_app_sep, List.filter_app, last_app_nonempty by done.
  reflexivity.
Qed.

Lemma name_ignores_leading_directories_witness :
  slug_name_of ("foo/baz" +:+ "/" +:+ "bar.py/") = slug_name_of "bar.py/".
Proof.
  apply (name_ignores_leading_directories "foo/baz" "bar.py/"). discriminate.
Defined.

(** *** Characters of the slug *)

Lemma contains_app (c : ascii) (s t : string) :
  contains c (s +:+ t) = contains c s || contains c t.
Proof.
  induction s as [|a s IH]; [done|].
  rewrite app_cons. cbn [contains]. by rewrite IH, orb_assoc.
Qed.

Lemma rstrip_keeps_without (c d : ascii) (s : string) :
  contains c s = false -> contains c (rstrip d s) = false.
Proof.
  intros H. destruct (rstrip_decompose d s) as (k & Hs & _).
  rewrite Hs, contains_app in H. by apply orb_false_iff in H as [H _].
Qed.

Lemma split_keeps_without (c d : ascii) (s : string) :
  contains c s = false ->
  Forall (fun w => contains c w = false) (split d s).
Proof.
  induction s as [|a s IH]; [by repeat constructor|].
  cbn [contains split]. intros [Ha Hs]%orb_false_iff.
  specialize (IH Hs). destruct (Ascii.eqb a d); [by constructor|].
  destruct (split d s) as [|w ws]; [by repeat constructor; cbn; rewrite Ha|].
  inversion IH as [|? ? Hw Hws]; subst. constructor; [|done].
  cbn. by rewrite Ha, Hw.
Qed.

Lemma derivation_keeps_without (c : ascii) (slug_path : string) :
  contains c slug_path = false ->
  contains c (slug_clean_of slug_path) = false /\
  contains c (slug_name_of slug_path) = false.
Proof.
  intros H.
  assert (Hclean : contains c (slug_clean_of slug_path) = false)
    by (by apply rstrip_keeps_without).
  split; [exact Hclean|].
  assert (Hname : contains c (PyPath.name (slug_clean_of slug_path)) = false).
  { unfold PyPath.name, PyPath.tail_parts.
    apply (last_Forall (fun w => contains c w = false)); [|done].
    apply List.Forall_forall. intros w [Hw _]%filter_In.
    pose proof (split_keeps_without c "/" _ Hclean) as Hall.
    rewrite List.Forall_forall in Hall. by apply Hall. }
  unfold slug_name_of, PyPath.stem.
  destruct (_ && _); [|exact Hname]. by apply substring_without.
Qed.

(** Derivation introduces no character: a character that does not occur in
    the slug occurs neither in the cleaned slug nor in the derived name. *)
Theorem derivation_introduces_no_character (c : ascii) (slug_path : string) :
  contains c slug_path = false ->
  contains c (slug_clean_of slug_path) = false /\
  contains c (slug_name_of slug_path) = false.
Proof. apply derivation_keeps_without. Qed.

Lemma derivation_introduces_no_character_witness :
  contains " " (slug_clean_of "example/test2.py") = false /\
  contains " " (slug_name_of "example/test2.py") = false.
Proof.
  apply (derivation_introduces_no_character " " "example/test2.py").
  reflexivity.
Defined.

End NameMore.

(* ===================================================================== *)
(** ** More on the builder *)
(* ===================================================================== *)

Module BuildMore.
Import PyStr Py Workflow Shape Terms.

(** For every request, also one without slugs, and every store: the builder
    returns the document literal referring to one new list object, the
    store grows by that object, and the objects it held are as before. *)
Theorem build_allocates_one_list (args : Namespace) (st0 : list (list value)) :
  exists (st : list (list value)) (steps : list value),
    build_workflow args st0 = Ok (workflow_literal (VList (length st0)), st) /\
    st = st0 ++ [steps] /\
    take (length st0) st = st0 /\
    length steps = (3 + 2 * length (slugs args))%nat.
Proof.
  eexists _, _. split; [apply BuildFacts.build_workflow_spec|].
  split; [reflexivity|]. split.
  - by rewrite take_app_length.
  - rewrite !length_app, BuildFacts.length_flat_map_steps. cbn. lia.
Qed.

Lemma flat_map_steps_lookup (slugs : list string) :
  forall (i : nat) (slug_path : string),
    slugs !! i = Some slug_path ->
    flat_map steps_of_slug slugs !! (2 * i)%nat
    = Some (grading_step (slug_clean_of slug_path) (slug_name_of slug_path)) /\
    flat_map steps_of_slug slugs !! (2 * i + 1)%nat
    = Some (export_step (slug_name_of slug_path)).
Proof.
  induction slugs as [|s l IH]; intros i slug_path Hi; [done|].
  destruct i as [|i]; cbn [flat_map].
  - injection Hi as ->. by split.
  - destruct (IH i slug_path Hi) as [Hg He].
    replace (2 * S i)%nat with (S (S (2 * i))) by lia.
    replace (S (S (2 * i)) + 1)%nat with (S (S (2 * i + 1))) by lia.
    by split.
Qed.

(** The steps of the slug at position [i] stand at positions [2 + 2*i]
    (grading) and [3 + 2*i] (result export) of the job's step list. *)
Theorem steps_of_slug_at (args : Namespace) (st0 : list (list value))
        (i : nat) (slug_path : string) :
  slugs args !! i = Some slug_path ->
  exists steps : list value,
    document_steps (build_workflow args st0) = Some steps /\
    steps !! (2 + 2 * i)%nat
    = Some (grading_step (slug_clean_of slug_path) (slug_name_of slug_path)) /\
    steps !! (3 + 2 * i)%nat = Some (export_step (slug_name_of slug_path)).
Proof.
  intros Hi. eexists. split; [apply BuildFacts.document_steps_spec|].
  destruct (flat_map_steps_lookup _ _ _ Hi) as [Hg He].
  assert (Hlen : (2 * i + 1 < length (flat_map steps_of_slug (slugs args)))%nat).
  { by eapply lookup_lt_Some. }
  rewrite !(lookup_app_r [checkout_step; install_step]) by (cbn; lia).
  cbn [length].
  replace (2 + 2 * i - 2)%nat with (2 * i)%nat by lia.
  replace (3 + 2 * i - 2)%nat with (2 * i + 1)%nat by lia.
  rewrite !lookup_app_l by lia. by split.
Qed.

Lemma steps_of_slug_at_witness :
  exists steps : list value,
    document_steps (build_workflow
      {| slugs := ["example/"; "example/test2.py"]; force := false;
         outfile := "out.yml" |} []) = Some steps /\
    steps !! (2 + 2 * 1)%nat
    = Some (grading_step (slug_clean_of "example/test2.py")
                         (slug_name_of "example/test2.py")) /\
    steps !! (3 + 2 * 1)%nat
    = Some (export_step (slug_name_of "example/test2.py")).
Proof.
  apply (steps_of_slug_at
           {| slugs := ["example/"; "example/test2.py"]; force := false;
              outfile := "out.yml" |} [] 1 "example/test2.py").
  reflexivity.
Defined.

(** The identifiers carried by the steps are those of the grading steps:
    the derived names, one per slug occurrence, in input order.  No other
    step has an identifier. *)
Theorem step_ids_are_the_names (args : Namespace) (st0 : list (list value)) :
  exists steps : list value,
    document_steps (build_workflow args st0) = Some steps /\
    step_ids steps = map (fun s => VStr (slug_name_of s)) (slugs args).
Proof.
  eexists. split; [apply BuildFacts.document_steps_spec|].
  unfold step_ids. rewrite !omap_app.
  change (omap (field "id") [checkout_step; install_step]) with (@nil value).
  change (omap (field "id") [reporter_step (map slug_name_of (slugs args))])
    with (@nil value).
  rewrite app_nil_r. cbn [app].
  induction (slugs args) as [|s l IH]; [reflexivity|].
  change (flat_map steps_of_slug (s :: l))
    with (steps_of_slug s ++ flat_map steps_of_slug l).
  rewrite omap_app, IH. reflexivity.
Qed.

(** *** The environment mapping as a dict *)

Lemma dict_get_env_entry_inv (k : string) (v : value) (l : list string) :
  dict_get k (map env_entry l) = Some v ->
  exists s : string, In s l /\ k = env_key s /\ v = VStr (env_template s).
Proof.
  induction l as [|y l IH]; [done|]. cbn [map dict_get].
  unfold env_entry at 1. destruct (String.eqb (env_key y) k) eqn:E.
  - apply String.eqb_eq in E as <-. intros [= <-]. exists y. by repeat split; [left|..].
  - intros H. destruct (IH H) as (s & Hs & Hk & Hv). exists s. by repeat split; [right|..].
Qed.

(** Subscripting the environment mapping: a key is bound exactly when it is
    [<name>_RESULTS] for a produced name, and then to the template of that
    name. *)
Theorem env_map_binds_exactly_the_names (slug_names : list string)
        (k : string) (v : value) :
  dict_get k (env_map slug_names) = Some v <->
  exists s : string,
    In s slug_names /\ k = s +:+ "_RESULTS" /\
    v = VStr ("${{ env." +:+ s +:+ "_RESULTS }}").
Proof.
  split.
  - rewrite BuildFacts.env_map_distinct. intros H.
    destruct (dict_get_env_entry_inv _ _ _ H) as (s & Hs & Hk & Hv).
    exists s. split; [by apply BuildFacts.distinct_In|done].
  - intros (s & Hs & -> & ->). by apply BuildFacts.env_map_lookup.
Qed.

Lemma filter_length_eq {A} (p : A -> bool) (l : list A) :
  length (List.filter p l) = length l -> List.filter p l = l.
Proof.
  induction l as [|x l IH]; [done|]. cbn [List.filter].
  pose proof (List.filter_length_le p l) as Hle.
  destruct (p x); cbn [length]; intros H; [f_equal; apply IH|]; lia.
Qed.

Lemma distinct_length_le (l : list string) :
  (length (distinct l) <= length l)%nat.
Proof.
  induction l as [|x l IH]; [done|]. cbn [distinct length].
  pose proof (List.filter_length_le
                (fun y => negb (String.eqb y x)) (distinct l)). lia.
Qed.

Lemma distinct_fixed (l : list string) :
  length (distinct l) = length l -> distinct l = l.
Proof.
  induction l as [|x l IH]; [done|]. cbn [distinct length]. intros H.
  pose proof (List.filter_length_le
                (fun y => negb (String.eqb y x)) (distinct l)) as H1.
  pose proof (distinct_length_le l) as H2.
  rewrite filter_length_eq by lia. f_equal. apply IH. lia.
Qed.

Lemma distinct_of_NoDup (l : list string) :
  List.NoDup l -> distinct l = l.
Proof.
  induction 1 as [|x l Hx _ IH]; [done|]. cbn [distinct]. rewrite IH.
  f_equal. apply filter_length_eq. f_equal.
  rewrite List.forallb_filter_id; [done|].
  apply forallb_forall. intros y Hy. apply negb_true_iff, String.eqb_neq.
  by intros ->.
Qed.

(** The environment mapping never has more entries than there are names,
    and it has one entry per name exactly when the names are pairwise
    different. *)
Theorem env_map_size (slug_names : list string) :
  (length (env_map slug_names) <= length slug_names)%nat /\
  (length (env_map slug_names) = length slug_names <-> List.NoDup slug_names).
Proof.
  rewrite BuildFacts.env_map_distinct, length_map. split.
  - apply distinct_length_le.
  - split.
    + intros H. rewrite <- (distinct_fixed _ H). apply BuildFacts.distinct_NoDup.
    + intros H. by rewrite distinct_of_NoDup.
Qed.

(** *** The [runners] value *)

Lemma split_without (c : ascii) (w : string) :
  contains c w = false -> split c w = [w].
Proof.
  induction w as [|a w IH]; [done|]. cbn [contains split].
  intros [Ha Hw]%orb_false_iff. by rewrite Ha, IH.
Qed.

Lemma split_field_then_rest (c : ascii) (w rest : string) :
  contains c w = false ->
  split c (w +:+ String c rest) = w :: split c rest.
Proof.
  intros Hw. rewrite NameMore.split_app_sep, split_without by done. reflexivity.
Qed.

Lemma split_join (names : list string) :
  names <> [] ->
  Forall (fun s => contains " " s = false) names ->
  split " " (join " " names) = names.
Proof.
  intros Hne Hall. induction Hall as [|x l Hx Hl IH]; [done|].
  destruct l as [|y l]; [by apply split_without|].
  change (join " " (x :: y :: l)) with (x +:+ String " " (join " " (y :: l))).
  rewrite split_field_then_rest by done. f_equal. by apply IH.
Qed.

(** When there is at least one slug and no derived name contains a space,
    splitting the reporter's [runners] value at the spaces gives back the
    produced names. *)
Theorem runners_splits_back (args : Namespace) (st0 : list (list value)) :
  slugs args <> [] ->
  Forall (fun s => contains " " (slug_name_of s) = false) (slugs args) ->
  exists (before : list value) (reporter : value) (runners : string),
    document_steps (build_workflow args st0) = Some (before ++ [reporter]) /\
    field2 "with" "runners" reporter = Some (VStr runners) /\
    split " " runners = map slug_name_of (slugs args).
Proof.
  intros Hne Hall.
  destruct (BuildFacts.reporter_is_last args st0) as [before Hb].
  exists before, (reporter_step (map slug_name_of (slugs args))),
         (join " " (map slug_name_of (slugs args))).
  split; [exact Hb|]. split; [reflexivity|].
  apply split_join.
  - by destruct (slugs args).
  - by apply Forall_map.
Qed.

Lemma runners_splits_back_witness :
  exists (before : list value) (reporter : value) (runners : string),
    document_steps (build_workflow
      {| slugs := ["example/"; "example/test2.py"]; force := false;
         outfile := "out.yml" |} []) = Some (before ++ [reporter]) /\
    field2 "with" "runners" reporter = Some (VStr runners) /\
    split " " runners = map slug_name_of ["example/"; "example/test2.py"].
Proof.
  apply (runners_splits_back
           {| slugs := ["example/"; "example/test2.py"]; force := false;
              outfile := "out.yml" |} []).
  - discriminate.
  - repeat constructor.
Defined.

(** A name with a space in it does not come back: the slug ["a b"] gives the
    name ["a b"], and the [runners] value splits into two tokens. *)
Example runners_with_a_space :
  split " " (join " " (map slug_name_of ["a b"])) = ["a"; "b"].
Proof. reflexivity. Qed.

End BuildMore.

(* ===================================================================== *)
(** ** More on the representer pass *)
(* ===================================================================== *)

Module YamlMore.
Import PyStr Py Workflow Yaml Shape Terms.

(** *** The list built by the marker loop *)

Lemma with_blanks_false_length (l : list value) :
  length (with_blanks false l) = (2 * length l)%nat.
Proof. induction l as [|x l IH]; [done|]. cbn in *. lia. Qed.

Lemma with_blanks_false_lookup (l : list value) :
  forall i : nat,
    with_blanks false l !! (2 * i)%nat
    = (if decide (i < length l)%nat then Some VBlankLine else None) /\
    with_blanks false l !! (2 * i + 1)%nat = l !! i.
Proof.
  induction l as [|x l IH]; intros i.
  - cbn. split; [|done]. case_decide; [lia|done].
  - destruct i as [|i].
    + cbn. split; [|done]. case_decide; [done|lia].
    + destruct (IH i) as [He Ho].
      replace (2 * S i)%nat with (S (S (2 * i))) by lia.
      replace (S (S (2 * i)) + 1)%nat with (S (S (2 * i + 1))) by lia.
      cbn [with_blanks app lookup list_lookup length].
      change (with_blanks false l !! (2 * i)%nat
              = (if decide (S i < S (length l))%nat then Some VBlankLine else None)
              /\ with_blanks false l !! (2 * i + 1)%nat = l !! i).
      split; [|exact Ho]. rewrite He.
      repeat case_decide; first [done | lia].
Qed.

Lemma with_blanks_drop_markers (first : bool) (l : list value) :
  List.filter (fun v => negb (is_marker v)) (with_blanks first l)
  = List.filter (fun v => negb (is_marker v)) l.
Proof.
  revert first. induction l as [|x l IH]; intros first; [done|].
  cbn [with_blanks]. rewrite List.filter_app.
  replace (List.filter (fun v => negb (is_marker v))
             (if first then [] else [VBlankLine])) with (@nil value)
    by (by destruct first).
  cbn [app List.filter]. by rewrite IH.
Qed.

(** Run on a fresh empty list, the loop over [data] fills it with
    [2 * len(data) - 1] entries (none for empty data): the entries of [data]
    at the even positions, a marker at every odd position, so a marker
    stands between every two neighbours and neither first nor last; and
    dropping the markers gives the entries of [data] that are not markers
    themselves. *)
Theorem blank_loop_layout (data : list value) (st : list (list value)) :
  exists new_data : list value,
    blank_loop (VList (length st)) data true (st ++ [[]])
    = Ok (tt, st ++ [new_data]) /\
    length new_data = (2 * length data - 1)%nat /\
    (forall i : nat, new_data !! (2 * i)%nat = data !! i) /\
    (forall i : nat,
        new_data !! (2 * i + 1)%nat
        = if decide (S i < length data)%nat then Some VBlankLine else None) /\
    List.filter (fun v => negb (is_marker v)) new_data
    = List.filter (fun v => negb (is_marker v)) data.
Proof.
  exists (with_blanks true data).
  split; [apply (YamlFacts.blank_loop_fresh data true st [])|].
  split; [|split; [|split]].
  - destruct data as [|x l]; [done|].
    cbn [with_blanks app length]. rewrite with_blanks_false_length. lia.
  - intros i. destruct data as [|x l]; [done|]. destruct i as [|i]; [done|].
    replace (2 * S i)%nat with (S (2 * i + 1)) by lia.
    cbn [with_blanks app]. apply (with_blanks_false_lookup l i).
  - intros i. destruct data as [|x l].
    + cbn. case_decide; [lia|done].
    + replace (2 * i + 1)%nat with (S (2 * i)) by lia.
      cbn [with_blanks app length].
      change ((x :: with_blanks false l) !! S (2 * i))
        with (with_blanks false l !! (2 * i)%nat).
      rewrite (proj1 (with_blanks_false_lookup l i)).
      repeat case_decide; first [done | lia].
  - apply with_blanks_drop_markers.
Qed.

(** *** Dispatch through the registry *)

Lemma unchanged_ret {A} (a : A) : unchanged (mret a).
Proof. by intros st a' st' [= <- <-]. Qed.

Lemma unchanged_raise {A} (e : exn) : unchanged (@raise A e).
Proof. intros st a st' H. discriminate H. Qed.

Lemma unchanged_bind {A B} (m : M A) (k : A -> M B) :
  unchanged m -> (forall a, unchanged (k a)) -> unchanged (m ≫= k).
Proof.
  intros Hm Hk st b st'. unfold mbind, M_bind.
  destruct (m st) as [[a st1]|e] eqn:E; [|discriminate].
  intros H. rewrite (Hm _ _ _ E) in H. by apply Hk in H.
Qed.

Lemma unchanged_read_list (a : addr) : unchanged (read_list a).
Proof.
  intros st items st'. unfold read_list.
  destruct (st !! a); [|discriminate]. by intros [= <- <-].
Qed.

Lemma unchanged_mapM {A B} (f : A -> M B) (l : list A) :
  (forall x, unchanged (f x)) -> unchanged (mapM f l).
Proof.
  intros Hf. induction l as [|x l IH]; cbn [mapM].
  - apply unchanged_ret.
  - apply unchanged_bind; [apply Hf|]. intros y.
    apply unchanged_bind; [apply IH|]. intros k. apply unchanged_ret.
Qed.

Lemma registry_never_gives_the_hook (t : pytype) :
  yaml_representers BlankLineStepsDumper t
  <> F_represent_list_with_extra_blank_lines.
Proof. by destruct t. Qed.

Lemma call_unchanged (fuel : nat) :
  forall (f : func) (self : dumper) (data : value),
    cls self = BlankLineStepsDumper ->
    f <> F_represent_list_with_extra_blank_lines ->
    unchanged (call fuel f self data).
Proof.
  induction fuel as [|fuel IH]; intros f self data Hcls Hf.
  { apply unchanged_raise. }
  assert (Hrep : forall d, unchanged (represent_data fuel self d)).
  { intros d. apply IH; [done|]. rewrite Hcls.
    apply registry_never_gives_the_hook. }
  destruct f; try done.
  - destruct data; first [apply unchanged_ret | apply unchanged_raise].
  - destruct data; try apply unchanged_raise.
    rewrite YamlFacts.call_list_unfold.
    apply unchanged_bind; [apply unchanged_read_list|]. intros items.
    apply unchanged_bind; [by apply unchanged_mapM|]. intros.
    apply unchanged_ret.
  - destruct data; try apply unchanged_raise.
    rewrite YamlFacts.call_dict_unfold.
    apply unchanged_bind; [|intros; apply unchanged_ret].
    apply unchanged_mapM. intros kv.
    apply unchanged_bind; [apply Hrep|]. intros.
    apply unchanged_bind; [apply Hrep|]. intros. apply unchanged_ret.
  - destruct data; try apply unchanged_raise.
    rewrite YamlFacts.call_tuple_unfold.
    apply unchanged_bind; [by apply unchanged_mapM|]. intros.
    apply unchanged_ret.
  - apply unchanged_ret.
  - destruct data; first [apply unchanged_ret | apply unchanged_raise].
  - apply unchanged_ret.
Qed.

(** Whatever is dumped with [BlankLineStepsDumper], and whatever the dumper
    instance carries as [recursive_objects]: representing a value creates
    no list object and changes none.  The marker list of the augmented
    list representer is therefore never built during a dump. *)
Theorem dump_never_builds_the_marker_list
        (fuel : nat) (self : dumper) (data : value)
        (st st' : list (list value)) (n : node) :
  cls self = BlankLineStepsDumper ->
  represent_data fuel self data st = Ok (n, st') ->
  st' = st.
Proof.
  intros Hcls H. eapply (call_unchanged fuel); [exact Hcls| |exact H].
  rewrite Hcls. apply registry_never_gives_the_hook.
Qed.

Lemma dump_never_builds_the_marker_list_witness :
  [[VStr "a"; VStr "b"]] = [[VStr "a"; VStr "b"]].
Proof.
  apply (dump_never_builds_the_marker_list 3
           {| cls := BlankLineStepsDumper;
              recursive_objects :=
                Some [VTuple [VDict [("steps", VList 0%nat)]; VStr "x"]] |}
           (VDict [("steps", VList 0%nat)])
           [[VStr "a"; VStr "b"]] [[VStr "a"; VStr "b"]]
           (MappingNode tag_map
              [(plain "steps", SequenceNode tag_seq [plain "a"; plain "b"])])).
  - reflexivity.
  - reflexivity.
Defined.

(** *** The assignment to [represent_list] *)

Lemma bind_ext {A B} (m1 m2 : M A) (k1 k2 : A -> M B) (st : store) :
  m1 st = m2 st ->
  (forall a st', k1 a st' = k2 a st') ->
  (m1 ≫= k1) st = (m2 ≫= k2) st.
Proof.
  intros Hm Hk. unfold mbind, M_bind. rewrite Hm.
  destruct (m2 st) as [[a st']|e]; [apply Hk|done].
Qed.

Lemma mapM_ext {A B} (f g : A -> M B) (l : list A) :
  (forall x st, f x st = g x st) -> forall st, mapM f l st = mapM g l st.
Proof.
  intros Hfg. induction l as [|x l IH]; intros st; [done|].
  cbn [mapM]. apply bind_ext; [apply Hfg|]. intros y st'.
  apply bind_ext; [apply IH|done].
Qed.

Lemma call_same_registry (fuel : nat) :
  forall (f : func) (objs : option (list value)) (data : value) (st : store),
    call fuel f {| cls := BlankLineStepsDumper; recursive_objects := objs |}
         data st
    = call fuel f {| cls := BlankLineStepsDumper_blank;
                     recursive_objects := objs |} data st.
Proof.
  induction fuel as [|fuel IH]; intros f objs data st; [done|].
  set (self := {| cls := BlankLineStepsDumper; recursive_objects := objs |}).
  set (self' := {| cls := BlankLineStepsDumper_blank;
                   recursive_objects := objs |}).
  assert (Hrep : forall d st0,
             represent_data fuel self d st0 = represent_data fuel self' d st0).
  { intros d st0. apply IH. }
  destruct f; try done.
  - destruct data; try done. rewrite !YamlFacts.call_list_unfold.
    apply bind_ext; [done|]. intros items st1.
    apply bind_ext; [by apply mapM_ext|done].
  - destruct data; try done. rewrite !YamlFacts.call_dict_unfold.
    apply bind_ext; [|done]. apply mapM_ext. intros kv st1.
    apply bind_ext; [apply Hrep|]. intros nk st2.
    apply bind_ext; [apply Hrep|done].
  - destruct data; try done. rewrite !YamlFacts.call_tuple_unfold.
    apply bind_ext; [by apply mapM_ext|done].
  - rewrite !YamlFacts.call_hook_unfold.
    unfold represent_list_with_extra_blank_lines. cbn [recursive_objects self self'].
    destruct objs as [objs|]; [|done].
    destruct (existsb (names_steps data) objs); [|apply IH].
    destruct data as [|?|a|?|]; try done.
    apply bind_ext; [done|]. intros items st1.
    destruct (1 <? Z.of_nat (length items)); [|apply IH].
    apply bind_ext; [done|]. intros new_data st2.
    apply bind_ext; [done|]. intros _ st3. apply IH.
Qed.

(** Binding the augmented function to the attribute [represent_list]
    changes no dump: for every value, store and depth, the class after the
    assignment represents the value exactly as the class before it (which
    only has the two [add_representer] registrations). *)
Theorem represent_list_assignment_changes_no_dump
        (fuel : nat) (data : value) (st : list (list value)) :
  represent fuel BlankLineStepsDumper data st
  = represent fuel BlankLineStepsDumper_blank data st.
Proof. apply call_same_registry. Qed.

(** *** The steps of every dump *)

(** For every request and a depth of at least 7: the builder and the
    representer succeed, the store is as the builder left it, and the
    sequence node under jobs / run-autograding-tests / steps has
    [3 + 2 * len(slugs)] items, all of them mappings: the nodes of the
    steps, with nothing in between. *)
Theorem every_dump_has_one_mapping_per_step
        (args : Namespace) (st0 : list (list value)) (fuel : nat) :
  (7 <= fuel)%nat ->
  exists (w : value) (st : list (list value)) (doc : node) (items : list node),
    build_workflow args st0 = Ok (w, st) /\
    represent fuel BlankLineStepsDumper w st = Ok (doc, st) /\
    ((node_get "jobs" doc ≫= node_get "run-autograding-tests")
       ≫= node_get "steps") = Some (SequenceNode tag_seq items) /\
    length items = (3 + 2 * length (slugs args))%nat /\
    forallb is_mapping items = true.
Proof.
  intros Hfuel.
  destruct (YamlFacts.represent_built_document args st0 fuel Hfuel)
    as (w & st & steps & Hbuild & Hsteps & Hrep & _).
  exists w, st, (document_node (map node_of steps)), (map node_of steps).
  split; [exact Hbuild|]. split; [exact Hrep|]. split; [reflexivity|].
  pose proof (BuildFacts.document_steps_spec args st0) as Hspec.
  rewrite Hbuild, Hsteps in Hspec. injection Hspec as ->.
  split.
  - rewrite length_map. cbn [app length].
    rewrite length_app, BuildFacts.length_flat_map_steps. cbn. lia.
  - apply forallb_forall. intros n [v [<- Hv]]%in_map_iff.
    pose proof (YamlFacts.steps_are_dicts (slugs args)) as Hd.
    rewrite Forall_forall in Hd. apply list_elem_of_In, Hd in Hv.
    by destruct v.
Qed.

Lemma every_dump_has_one_mapping_per_step_witness :
  exists (w : value) (st : list (list value)) (doc : node) (items : list node),
    build_workflow {| slugs := ["example/"]; force := false;
                      outfile := "out.yml" |} [] = Ok (w, st) /\
    represent 7 BlankLineStepsDumper w st = Ok (doc, st) /\
    ((node_get "jobs" doc ≫= node_get "run-autograding-tests")
       ≫= node_get "steps") = Some (SequenceNode tag_seq items) /\
    length items = (3 + 2 * length ["example/"])%nat /\
    forallb is_mapping items = true.
Proof.
  apply (every_dump_has_one_mapping_per_step
           {| slugs := ["example/"]; force := false; outfile := "out.yml" |}
           [] 7).
  lia.
Defined.

(** *** Styles of the strings built from a slug *)

(** For a slug without a line feed, the strings built from it are asked for
    in the default style: the derived name (step name, identifier and test
    name), the grading command, the name and the command of the
    result-export step, and the environment key and template.  The setup
    command of the grading step is a literal block whatever the slug. *)
Theorem strings_of_a_one_line_slug_are_plain (slug_path : string) :
  contains LF slug_path = false ->
  str_presenter (slug_name_of slug_path) = plain (slug_name_of slug_path) /\
  str_presenter (grading_command (slug_clean_of slug_path)
                                 (slug_name_of slug_path))
  = plain (grading_command (slug_clean_of slug_path) (slug_name_of slug_path)) /\
  str_presenter (export_command (slug_name_of slug_path))
  = plain (export_command (slug_name_of slug_path)) /\
  str_presenter ("Assign file contents to " +:+ slug_name_of slug_path
                   +:+ "_RESULTS")
  = plain ("Assign file contents to " +:+ slug_name_of slug_path +:+ "_RESULTS") /\
  str_presenter (env_key (slug_name_of slug_path))
  = plain (env_key (slug_name_of slug_path)) /\
  str_presenter (env_template (slug_name_of slug_path))
  = plain (env_template (slug_name_of slug_path)) /\
  (node_get "with" (node_of (grading_step (slug_clean_of slug_path)
                                          (slug_name_of slug_path)))
     ≫= node_get "setup-command") ≫= node_style = Some (Some Literal).
Proof.
  intros H.
  destruct (NameMore.derivation_keeps_without LF slug_path H)
    as [Hclean Hname].
  assert (Hplain : forall s, contains LF s = false -> str_presenter s = plain s).
  { intros s Hs. unfold str_presenter. by rewrite Hs. }
  repeat split; try apply Hplain;
    unfold grading_command, export_command, env_key, env_template;
    rewrite ?NameMore.contains_app, ?Hclean, ?Hname; reflexivity.
Qed.

Lemma strings_of_a_one_line_slug_are_plain_witness :
  str_presenter (slug_name_of "example/") = plain (slug_name_of "example/") /\
  str_presenter (grading_command (slug_clean_of "example/")
                                 (slug_name_of "example/"))
  = plain (grading_command (slug_clean_of "example/") (slug_name_of "example/")) /\
  str_presenter (export_command (slug_name_of "example/"))
  = plain (export_command (slug_name_of "example/")) /\
  str_presenter ("Assign file contents to " +:+ slug_name_of "example/"
                   +:+ "_RESULTS")
  = plain ("Assign file contents to " +:+ slug_name_of "example/" +:+ "_RESULTS") /\
  str_presenter (env_key (slug_name_of "example/"))
  = plain (env_key (slug_name_of "example/")) /\
  str_presenter (env_template (slug_name_of "example/"))
  = plain (env_template (slug_name_of "example/")) /\
  (node_get "with" (node_of (grading_step (slug_clean_of "example/")
                                          (slug_name_of "example/")))
     ≫= node_get "setup-command") ≫= node_style = Some (Some Literal).
Proof.
  apply (strings_of_a_one_line_slug_are_plain "example/"). reflexivity.
Defined.

End YamlMore.

(* ===================================================================== *)
(** ** More on the entry point *)
(* ===================================================================== *)

Module MainMore.
Import Py Workflow Yaml Shape Terms Main Disk.

(** What a run hands to the file it opened depends on the slugs only: when
    two runs with the same slugs both reach the dump, on whatever systems,
    worlds, output paths and force flags, the text they write is the
    same. *)
Theorem written_text_depends_on_the_slugs_only
        (O1 O2 : system) (emit : node -> string) (fuel : nat)
        (args1 args2 : Namespace) (w1 : world O1) (w2 : world O2)
        (path1 path2 text1 text2 : string) :
  slugs args1 = slugs args2 ->
  In (Dumped path1 text1) (trace (main O1 emit fuel args1 w1)) ->
  In (Dumped path2 text2) (trace (main O2 emit fuel args2 w2)) ->
  text1 = text2.
Proof.
  intros Hslugs H1 H2. unfold main in H1, H2.
  rewrite BuildFacts.build_workflow_spec in H1, H2. rewrite Hslugs in H1.
  cbn [length] in H1, H2.
  destruct (os_path_exists O1 w1 (outfile args1) && negb (force args1));
    [done|].
  destruct (os_path_exists O2 w2 (outfile args2) && negb (force args2));
    [done|].
  destruct (os_open_w O1 w1 (outfile args1)) as [?|[f1 o1]].
  { cbn in H1. by destruct H1. }
  destruct (os_open_w O2 w2 (outfile args2)) as [?|[f2 o2]].
  { cbn in H2. by destruct H2. }
  destruct (represent fuel BlankLineStepsDumper _ _) as [[doc st]|e].
  - cbn in H1, H2.
    destruct H1 as [H1|[H1|[H1|[]]]]; try discriminate H1.
    destruct H2 as [H2|[H2|[H2|[]]]]; try discriminate H2.
    congruence.
  - cbn in H1. destruct H1 as [H1|[H1|[]]]; discriminate H1.
Qed.

Lemma written_text_depends_on_the_slugs_only_witness :
  ("yaml" : string) = "yaml".
Proof.
  apply (written_text_depends_on_the_slugs_only
           disk_system disk_system (fun _ => "yaml") 7
           {| slugs := ["example/"]; force := true; outfile := "a.yml" |}
           {| slugs := ["example/"]; force := false; outfile := "b.yml" |}
           {| dirs := ∅; files := {[ "a.yml" := "old" ]} |}
           {| dirs := ∅; files := ∅ |}
           "a.yml" "b.yml" "yaml" "yaml").
  - reflexivity.
  - vm_compute. do 2 right. left. reflexivity.
  - vm_compute. do 2 right. left. reflexivity.
Defined.

End MainMore.
